(** * ProductContext: the client-side product catalogue store

    A shallow embedding of [src/contexts/ProductContext.tsx]: the seed
    conversion ([convertToProduct], [convertToINR], [initialProducts]), the
    provider's operations ([addProduct], [updateProduct], [deleteProduct],
    [getProductsByCategory], [refreshProducts]) and the consumer accessor
    [useProducts], followed by the properties the catalogue's specification
    states about them.

    JavaScript values are an inductive type, numbers are IEEE-754 binary64
    (Rocq's primitive floats), objects are finite maps from property names to
    values, and the effects of the component (React state, [localStorage], the
    system clock, the console, exceptions) are threaded through a small state
    and exception monad. *)

From Stdlib Require Import ZArith String Ascii List Floats DecimalString Lia.
From stdpp Require Import gmap strings list fin_maps.

Local Open Scope string_scope.
Local Open Scope Z_scope.

(** ** JavaScript values *)

Module JS.

(** The values a record of the catalogue can hold.  An object is the finite
    map of its own enumerable properties; the order in which an engine
    enumerates them is not represented. *)
#[warnings="-register-all"]
Inductive value : Type :=
| VUndefined
| VNull
| VBool (b : bool)
| VNum (f : float)
| VStr (s : string)
| VArr (l : list value)
| VObj (o : gmap string value).

(** [o.k]: reading a property that is absent gives [undefined]. *)
Definition get (k : string) (o : gmap string value) : value :=
  default VUndefined (o !! k).

(** ToBoolean, as used by [||] and [if]. *)
Definition truthy (v : value) : bool :=
  match v with
  | VUndefined | VNull => false
  | VBool b => b
  | VNum f => negb (PrimFloat.eqb f 0%float || PrimFloat.is_nan f)
  | VStr s => negb (String.eqb s "")
  | VArr _ | VObj _ => true
  end.

(** [a || b] on already evaluated operands. *)
Definition or_else (a b : value) : value := if truthy a then a else b.

(** [a === b].  Arrays and objects compare by reference in JavaScript; two
    values of this model that are arrays or objects stand for separately
    allocated ones, which are never identical. *)
Definition strict_eq (a b : value) : bool :=
  match a, b with
  | VUndefined, VUndefined => true
  | VNull, VNull => true
  | VBool x, VBool y => Bool.eqb x y
  | VNum x, VNum y => PrimFloat.eqb x y
  | VStr x, VStr y => String.eqb x y
  | _, _ => false
  end.


(** *** Decimal numerals *)

Definition digit_val (c : ascii) : option Z :=
  let n := Z.of_nat (nat_of_ascii c) in
  if (48 <=? n) && (n <=? 57) then Some (n - 48) else None.

(** Reads the longest run of decimal digits at the head of [s], continuing the
    numeral [acc]; returns the numeral, the number of digits read and the rest
    of the string. *)
Fixpoint span_digits (s : string) (acc : Z) (n : Z) : Z * Z * string :=
  match s with
  | String c r =>
      match digit_val c with
      | Some d => span_digits r (10 * acc + d) (n + 1)
      | None => (acc, n, s)
      end
  | EmptyString => (acc, n, s)
  end.

(** [n / d] rounded to the nearest integer, ties to even ([0 <= n], [0 < d]). *)
Definition div_nearest_even (n d : Z) : Z :=
  let q := n / d in
  match 2 * (n mod d) ?= d with
  | Lt => q
  | Gt => q + 1
  | Eq => if Z.even q then q else q + 1
  end.

(** The binary64 value nearest to [(-1)^neg * m * 10^e] (ties to even), for
    [0 <= m]: the Number value of a decimal literal. *)
Definition double_of_decimal (neg : bool) (m e : Z) : float :=
  let magnitude :=
    if m =? 0 then 0%float else
    let n := if 0 <=? e then m * 10 ^ e else m in
    let d := if 0 <=? e then 1 else 10 ^ (- e) in
    let floor_at x := if 0 <=? x then n / (d * 2 ^ x) else (n * 2 ^ (- x)) / d in
    let round_at x :=
      if 0 <=? x then div_nearest_even n (d * 2 ^ x)
      else div_nearest_even (n * 2 ^ (- x)) d in
    let x0 := Z.log2 n - Z.log2 d - 52 in
    let x1 := if floor_at x0 <? 2 ^ 52 then x0 - 1 else x0 in
    let x := Z.max x1 (-1074) in
    FloatOps.Z.ldexp (PrimFloat.of_uint63 (Uint63.of_Z (round_at x))) x in
  if neg then PrimFloat.opp magnitude else magnitude.

(** ASCII white space and line terminators. *)
Definition is_space (c : ascii) : bool :=
  let n := nat_of_ascii c in
  ((9 <=? n) && (n <=? 13))%nat || (n =? 32)%nat.

Fixpoint trim_start (s : string) : string :=
  match s with
  | String c r => if is_space c then trim_start r else s
  | EmptyString => s
  end.

(** The exponent part [[eE][+-]?digits] at the head of [s] and what follows
    it; exponent 0 and [s] itself when there is none. *)
Definition exponent_part (s : string) : Z * string :=
  match s with
  | String c r =>
      if Ascii.eqb c "e" || Ascii.eqb c "E" then
        let '(neg, r') :=
          match r with
          | String "-" t => (true, t)
          | String "+" t => (false, t)
          | _ => (false, r)
          end in
        let '(v, n, rest) := span_digits r' 0 0 in
        if n =? 0 then (0, s) else (if neg then - v else v, rest)
      else (0, s)
  | EmptyString => (0, s)
  end.

(** The longest prefix of [s] that is a decimal literal
    ([[+-]? (Infinity | digits [. digits?] exp? | . digits exp?)]): its Number
    value and what follows it; [None] when no prefix is one. *)
Definition decimal_prefix (s : string) : option (float * string) :=
  let '(neg, s1) :=
    match s with
    | String "-" r => (true, r)
    | String "+" r => (false, r)
    | _ => (false, s)
    end in
  if String.prefix "Infinity" s1 then
    Some (if neg then PrimFloat.neg_infinity else PrimFloat.infinity,
          String.substring 8 (String.length s1 - 8)%nat s1)
  else
    let '(ip, ni, s2) := span_digits s1 0 0 in
    let '(m, nf, s3) :=
      match s2 with
      | String "." r => span_digits r ip 0
      | _ => (ip, 0, s2)
      end in
    if ni + nf =? 0 then None
    else
      let '(ex, s4) := exponent_part s3 in
      Some (double_of_decimal neg m (ex - nf), s4).

(** The global [parseFloat] on a string: the value of the longest prefix that
    is a decimal literal (after leading white space), [NaN] when there is
    none. *)
Definition parseFloat (s : string) : float :=
  match decimal_prefix (trim_start s) with
  | Some (f, _) => f
  | None => PrimFloat.nan
  end.

(** Digits of a non-decimal integer literal ([0x], [0o], [0b]). *)
Definition radix_digit (base : Z) (c : ascii) : option Z :=
  let n := Z.of_nat (nat_of_ascii c) in
  let d :=
    if (48 <=? n) && (n <=? 57) then n - 48
    else if (97 <=? n) && (n <=? 102) then n - 87
    else if (65 <=? n) && (n <=? 70) then n - 55
    else 99 in
  if d <? base then Some d else None.

Fixpoint radix_value (base : Z) (s : string) (acc : Z) : option Z :=
  match s with
  | String c r =>
      match radix_digit base c with
      | Some d => radix_value base r (base * acc + d)
      | None => None
      end
  | EmptyString => Some acc
  end.

(** StringToNumber, the coercion of a string to a Number: the whole string,
    white space at both ends apart, must be a numeric literal; the empty
    string is [0]. *)
Definition StringToNumber (s : string) : float :=
  let t := String.rev (trim_start (String.rev (trim_start s))) in
  let integer base digits :=
    match digits, radix_value base digits 0 with
    | String _ _, Some n => double_of_decimal false n 0
    | _, _ => PrimFloat.nan
    end in
  let decimal :=
    match decimal_prefix t with
    | Some (f, EmptyString) => f
    | _ => PrimFloat.nan
    end in
  match t with
  | EmptyString => 0%float
  | String "0" (String c r) =>
      if Ascii.eqb c "x" || Ascii.eqb c "X" then integer 16 r
      else if Ascii.eqb c "o" || Ascii.eqb c "O" then integer 8 r
      else if Ascii.eqb c "b" || Ascii.eqb c "B" then integer 2 r
      else decimal
  | _ => decimal
  end.

(** [s.replace(/[^0-9.-]+/g, '')]: every run of characters outside the class
    is deleted, which keeps exactly the digits, ['.'] and ['-']. *)
Definition keeps (c : ascii) : bool :=
  match digit_val c with
  | Some _ => true
  | None => Ascii.eqb c "." || Ascii.eqb c "-"
  end.

Fixpoint strip_non_numeric (s : string) : string :=
  match s with
  | String c r => if keeps c then String c (strip_non_numeric r) else strip_non_numeric r
  | EmptyString => EmptyString
  end.

(** *** Coercions *)

Section Coercions.

(** Number::toString, the decimal form of a Number, is left to the engine. *)
Variable NumberToString : float -> string.

(** [String(v)].  An array is the comma-separated list of its elements
    ([undefined] and [null] as empty strings), a plain object is
    ["[object Object]"]. *)
Fixpoint ToString (v : value) : string :=
  match v with
  | VUndefined => "undefined"
  | VNull => "null"
  | VBool b => if b then "true" else "false"
  | VNum f => NumberToString f
  | VStr s => s
  | VArr l =>
      String.concat ","
        (List.map (fun x => match x with
                            | VUndefined | VNull => ""
                            | _ => ToString x
                            end) l)
  | VObj _ => "[object Object]"
  end.

(** ToNumber, the coercion the operator [*] applies to its operands. *)
Definition ToNumber (v : value) : float :=
  match v with
  | VUndefined => PrimFloat.nan
  | VNull => 0%float
  | VBool b => if b then 1%float else 0%float
  | VNum f => f
  | VStr s => StringToNumber s
  | VArr _ | VObj _ => StringToNumber (ToString v)
  end.

End Coercions.

(** *** Time values *)

(** The decimal numeral of an integer. *)
Definition decimal (n : Z) : string := NilZero.string_of_int (Z.to_int n).

(** [n] in decimal, padded with zeros on the left to [width] digits ([0 <= n]). *)
Definition pad (width : nat) (n : Z) : string :=
  let d := decimal n in
  String.concat "" (List.repeat "0" (width - String.length d)) ++ d.

(** The civil date (year, month, day) of a day number counted from
    1970-01-01, in the proleptic Gregorian calendar. *)
Definition civil_from_days (days : Z) : Z * Z * Z :=
  let z := days + 719468 in
  let era := z / 146097 in
  let doe := z - era * 146097 in
  let yoe := (doe - doe / 1460 + doe / 36524 - doe / 146096) / 365 in
  let doy := doe - (365 * yoe + yoe / 4 - yoe / 100) in
  let mp := (5 * doy + 2) / 153 in
  let d := doy - (153 * mp + 2) / 5 + 1 in
  let m := if mp <? 10 then mp + 3 else mp - 9 in
  let y := yoe + era * 400 + (if m <=? 2 then 1 else 0) in
  (y, m, d).

(** [new Date(t).toISOString()] for a time value [t] in milliseconds since
    the epoch: [YYYY-MM-DDTHH:mm:ss.sssZ] in UTC, the year with a sign and six
    digits outside 0..9999. *)
Definition toISOString (t : Z) : string :=
  let '(y, m, d) := civil_from_days (t / 86400000) in
  let ms := t mod 86400000 in
  let year :=
    if (0 <=? y) && (y <=? 9999) then pad 4 y
    else (if y <? 0 then "-" else "+") ++ pad 6 (Z.abs y) in
  year ++ "-" ++ pad 2 m ++ "-" ++ pad 2 d
    ++ "T" ++ pad 2 (ms / 3600000) ++ ":" ++ pad 2 (ms / 60000 mod 60)
    ++ ":" ++ pad 2 (ms / 1000 mod 60) ++ "." ++ pad 3 (ms mod 1000) ++ "Z".

(** [String(Date.now())]: a time value is an integer below [10^21] in
    magnitude, which Number::toString writes as its plain decimal numeral. *)
Definition String_of_time (t : Z) : string := decimal t.

End JS.


Import JS.

(** A product is a record: the map of its fields ([id], [category], [price],
    [inStock], [sizes], [media], [createdAt], [updatedAt], and whatever else
    the [Product] interface of [../types] declares). *)
Abbreviation Product := (gmap string value).

(** ** The host environment *)

(** What the engine and the browser provide and the module only calls.
    [JSON_parse] is [JSON.parse] read at the type the component gives its
    result, [Product[]]: [None] when [JSON.parse] throws a [SyntaxError]. *)
Record Host := {
  (** the successive readings of the system clock, in milliseconds since the
      epoch: what the [k]-th evaluation of [Date.now()] or [new Date()] sees *)
  clock : nat -> Z;
  NumberToString : float -> string;
  JSON_stringify : list Product -> string;
  JSON_parse : string -> option (list Product)
}.

(** ** Effects *)

(** What a call can throw. *)
Inductive exn : Type :=
| SyntaxError
| Error (message : string).

Inductive completion (A : Type) : Type :=
| Ok (a : A)
| Throw (e : exn).
Arguments Ok {A} a.
Arguments Throw {A} e.

(** The calls a component makes on React and on the browser, as they are
    logged in [trace]. *)
Inductive event : Type :=
| SetProducts (l : list Product)
| SetLoading (b : bool)
| SetError (e : option string)
| GetItem (key : string)
| SetItem (key data : string)
| ConsoleError (message : string).

(** The three pieces of React state of [ProductProvider], [localStorage], the
    number of clock readings taken so far, and the log of calls, oldest
    first. *)
Record State := {
  products : list Product;
  loading : bool;
  error : option string;
  storage : gmap string string;
  reads : nat;
  trace : list event
}.

Definition M (A : Type) : Type := State -> completion A * State.

#[global] Instance M_ret : MRet M := fun A a st => (Ok a, st).

#[global] Instance M_bind : MBind M := fun A B k m st =>
  match m st with
  | (Ok a, st') => k a st'
  | (Throw e, st') => (Throw e, st')
  end.

(** [try { body } catch (err) { handler } finally { final }] *)
Definition try_catch_finally {A} (body : M A) (handler : exn -> M A) (final : M unit) : M A :=
  fun st =>
    let '(r, st1) :=
      match body st with
      | (Ok a, st') => (Ok a, st')
      | (Throw e, st') => handler e st'
      end in
    match final st1 with
    | (Ok _, st2) => (r, st2)
    | (Throw e, st2) => (Throw e, st2)
    end.

(** [l.map(f)] for a callback with effects: the elements in index order. *)
Fixpoint mapM {A B} (f : A -> M B) (l : list A) : M (list B) :=
  match l with
  | [] => mret []
  | x :: r => y ← f x; ys ← mapM f r; mret (y :: ys)
  end.

Definition log (e : event) (st : State) : list event := trace st ++ [e].

(** The state setters: the value the next render sees. *)
Definition setProducts (l : list Product) : M unit := fun st =>
  (Ok tt, {| products := l; loading := loading st; error := error st;
             storage := storage st; reads := reads st;
             trace := log (SetProducts l) st |}).

Definition setLoading (b : bool) : M unit := fun st =>
  (Ok tt, {| products := products st; loading := b; error := error st;
             storage := storage st; reads := reads st;
             trace := log (SetLoading b) st |}).

Definition setError (e : option string) : M unit := fun st =>
  (Ok tt, {| products := products st; loading := loading st; error := e;
             storage := storage st; reads := reads st;
             trace := log (SetError e) st |}).

(** [localStorage.getItem(key)]: [null] (here [None]) when the key is absent;
    the read itself is taken to succeed. *)
Definition getItem (key : string) : M (option string) := fun st =>
  (Ok (storage st !! key),
   {| products := products st; loading := loading st; error := error st;
      storage := storage st; reads := reads st;
      trace := log (GetItem key) st |}).

(** [localStorage.setItem(key, data)]; the write is taken to succeed, as the
    module does. *)
Definition setItem (key data : string) : M unit := fun st =>
  (Ok tt, {| products := products st; loading := loading st; error := error st;
             storage := <[key := data]> (storage st); reads := reads st;
             trace := log (SetItem key data) st |}).

Definition console_error (message : string) : M unit := fun st =>
  (Ok tt, {| products := products st; loading := loading st; error := error st;
             storage := storage st; reads := reads st;
             trace := log (ConsoleError message) st |}).

(** The value the provider hands to its consumers. *)
Module ProductContextType.
Record t := {
  products : list Product;
  loading : bool;
  error : option string;
  addProduct : Product -> M unit;
  updateProduct : Product -> M unit;
  deleteProduct : string -> M unit;
  getProductsByCategory : string -> M (list Product);
  refreshProducts : M unit
}.
End ProductContextType.

(** ** A host and data for running the model

    A stand-in for the engine on test data: the clock starts at
    2023-11-14T22:13:20.000Z and advances 7 ms per reading; numbers and
    snapshots are written in a simplified form, and the only snapshot text
    that parses is that of the empty list. *)
Module Fixture.

(** A number as the decimal numeral of its integer part. *)
Definition number (f : float) : string :=
  match Prim2SF f with
  | S754_zero _ => "0"
  | S754_infinity s => if s then "-Infinity" else "Infinity"
  | S754_nan => "NaN"
  | S754_finite s m e => (if s then "-" else "") ++ decimal (Z.shiftl (Z.pos m) e)
  end.

(** A snapshot as the list of its identifiers. *)
Definition snapshot (l : list Product) : string :=
  "[" ++ String.concat "," (List.map (fun p => ToString number (get "id" p)) l) ++ "]".

Definition host : Host := {|
  clock := fun k => 1700000000000 + 7 * Z.of_nat k;
  NumberToString := number;
  JSON_stringify := snapshot;
  JSON_parse := fun text => if String.eqb text "[]" then Some [] else None
|}.

Definition shirt : Product :=
  <["id" := VStr "1"]> (<["name" := VStr "Shirt"]> (<["category" := VStr "Men"]>
  (<["price" := VNum 750]> (<["createdAt" := VStr "2024-01-01T00:00:00.000Z"]> ∅)))).

Definition watch : Product :=
  <["id" := VStr "2"]> (<["name" := VStr "Watch"]> (<["category" := VStr "Watches"]>
  (<["price" := VNum 1500]> ∅))).

(** A second record under the identifier of [shirt], as two additions within
    one millisecond leave behind. *)
Definition scarf : Product :=
  <["id" := VStr "1"]> (<["name" := VStr "Scarf"]> (<["category" := VStr "Women"]> ∅)).

(** A provider whose live list is [l], whose last refresh left [e], and whose
    storage holds [slot] under [products]. *)
Definition state (l : list Product) (e : option string) (slot : option string) : State :=
  {| products := l; loading := false; error := e;
     storage := match slot with
                | Some text => {["products" := text]}
                | None => ∅
                end;
     reads := 0; trace := [] |}.

(** The same host with a clock that stands still. *)
Definition frozen : Host := {|
  clock := fun _ => 1700000000000;
  NumberToString := number;
  JSON_stringify := snapshot;
  JSON_parse := fun text => if String.eqb text "[]" then Some [] else None
|}.

(** [shirt] with both timestamps. *)
Definition dated : Product :=
  <["updatedAt" := VStr "2024-02-01T00:00:00.000Z"]> shirt.

(** A seed record with a name only. *)
Definition bare : Product := {["name" := VStr "Cap"]}.

End Fixture.

Section Catalogue.

Context (host : Host).

(** The four seed datasets of [../data/products]. *)
Variables mensProducts womensProducts kidsProducts watchesProducts : list Product.

(** [Date.now()], and the time value of [new Date()]: the next clock reading. *)
Definition Date_now : M Z := fun st =>
  (Ok (clock host (reads st)),
   {| products := products st; loading := loading st; error := error st;
      storage := storage st; reads := S (reads st); trace := trace st |}).

(** [new Date().toISOString()], as a string value *)
Definition new_Date_toISOString : M value :=
  t ← Date_now; mret (VStr (toISOString t)).

(** [JSON.parse(text)] at type [Product[]] *)
Definition parse (text : string) : M (list Product) := fun st =>
  match JSON_parse host text with
  | Some l => (Ok l, st)
  | None => (Throw SyntaxError, st)
  end.

(** [a || b] where [b] has effects: [b] is evaluated only when [a] is falsy. *)
Definition or_elseM (a : value) (b : M value) : M value :=
  if truthy a then mret a else b.

(** *** Seeding *)

Definition convertToProduct (product : Product) : M Product :=
  createdAt ← or_elseM (get "createdAt" product) new_Date_toISOString;
  updatedAt ← or_elseM (get "updatedAt" product) new_Date_toISOString;
  mret (<["updatedAt" := updatedAt]>
        (<["createdAt" := createdAt]>
         (<["media" := or_else (get "media" product) (VArr [])]>
          (<["id" := VStr (ToString (NumberToString host) (get "id" product))]>
           product)))).

(** The price a seed record is given: its source price, read as a number
    ([parseFloat] of the stripped text when it is a string), times 75. *)
Definition priceINR (product : Product) : value :=
  let price := get "price" product in
  VNum (match price with
        | VStr s => PrimFloat.mul (parseFloat (strip_non_numeric s)) 75
        | _ => PrimFloat.mul (ToNumber (NumberToString host) price) 75
        end).

Definition convertToINR (products : list Product) : M (list Product) :=
  mapM (fun product =>
          converted ← convertToProduct product;
          mret (<["price" := priceINR product]> converted))
       products.

(** The module is loaded once, before any component exists: the clock is at
    its first reading and nothing else of the state is touched. *)
Definition at_load : State :=
  {| products := []; loading := false; error := None;
     storage := ∅; reads := 0; trace := [] |}.

Definition load_initialProducts : M (list Product) :=
  mens ← convertToINR mensProducts;
  womens ← convertToINR womensProducts;
  kids ← convertToINR kidsProducts;
  watches ← convertToINR watchesProducts;
  mret (mens ++ womens ++ kids ++ watches)%list.

Definition initialProducts : list Product :=
  match load_initialProducts at_load with
  | (Ok l, _) => l
  | (Throw _, _) => []
  end.

(** *** The provider *)

(** The initial value of the [products] state: the stored snapshot when there
    is one (a non-empty string), the seed list otherwise. *)
Definition initial_state : M (list Product) :=
  storedProducts ← getItem "products";
  match storedProducts with
  | Some text => if String.eqb text "" then mret initialProducts else parse text
  | None => mret initialProducts
  end.

Definition saveProductsToStorage (products : list Product) : M unit :=
  setItem "products" (JSON_stringify host products).

(** The callbacks close over [products], the list of the render that made
    them: it is their first argument here. *)
Definition addProduct (products : list Product) (product : Product) : M unit :=
  now ← Date_now;
  createdAt ← new_Date_toISOString;
  updatedAt ← new_Date_toISOString;
  let newProduct :=
    <["updatedAt" := updatedAt]>
    (<["createdAt" := createdAt]>
     (<["media" := or_else (get "media" product) (VArr [])]>
      (<["sizes" := or_else (get "sizes" product)
                      (VArr [VStr "S"; VStr "M"; VStr "L"; VStr "XL"])]>
       (<["inStock" := VBool true]>
        (<["id" := VStr (String_of_time now)]> product))))) in
  let updatedProducts := (products ++ [newProduct])%list in
  setProducts updatedProducts;;
  saveProductsToStorage updatedProducts.

Definition updateProduct (products : list Product) (updatedProduct : Product) : M unit :=
  updatedProducts ←
    mapM (fun product =>
            if strict_eq (get "id" product) (get "id" updatedProduct)
            then updatedAt ← new_Date_toISOString;
                 mret (<["updatedAt" := updatedAt]> updatedProduct)
            else mret product)
         products;
  setProducts updatedProducts;;
  saveProductsToStorage updatedProducts.

Definition deleteProduct (products : list Product) (productId : string) : M unit :=
  let updatedProducts :=
    List.filter (fun product => negb (strict_eq (get "id" product) (VStr productId)))
                products in
  setProducts updatedProducts;;
  saveProductsToStorage updatedProducts.

Definition getProductsByCategory (products : list Product) (category : string)
  : M (list Product) :=
  mret (List.filter (fun product =>
                       if String.eqb category "All" then true
                       else strict_eq (get "category" product) (VStr category))
                    products).

Definition refreshProducts : M unit :=
  try_catch_finally
    (setLoading true;;
     setError None;;
     storedProducts ← getItem "products";
     match storedProducts with
     | Some text =>
         if String.eqb text "" then setProducts initialProducts
         else parsed ← parse text; setProducts parsed
     | None => setProducts initialProducts
     end)
    (fun err =>
       setError (Some "Failed to refresh products");;
       console_error "Error refreshing products:")
    (setLoading false).

(** The context value of a render in state [st]: the state and the callbacks
    closed over its [products]. *)
Definition ProductProvider (st : State) : ProductContextType.t := {|
  ProductContextType.products := products st;
  ProductContextType.loading := loading st;
  ProductContextType.error := error st;
  ProductContextType.addProduct := addProduct (products st);
  ProductContextType.updateProduct := updateProduct (products st);
  ProductContextType.deleteProduct := deleteProduct (products st);
  ProductContextType.getProductsByCategory := getProductsByCategory (products st);
  ProductContextType.refreshProducts := refreshProducts
|}.

(** [useContext(ProductContext)] for a consumer whose nearest enclosing
    provider, if any, is in state [scope]: the provider's value, or the
    context's default, [undefined] (here [None]). *)
Definition useContext (scope : option State) : option ProductContextType.t :=
  ProductProvider <$> scope.

Definition useProducts (scope : option State) : completion ProductContextType.t :=
  match useContext scope with
  | None => Throw (Error "useProducts must be used within a ProductProvider")
  | Some context => Ok context
  end.

(** ** Vocabulary of the properties *)

(** [st] after [n] more clock readings. *)
Definition ticked (n : nat) (st : State) : State :=
  {| products := products st; loading := loading st; error := error st;
     storage := storage st; reads := reads st + n; trace := trace st |}.

(** [st] after [setProducts l] and [saveProductsToStorage l]. *)
Definition committed (l : list Product) (st : State) : State :=
  {| products := l; loading := loading st; error := error st;
     storage := <["products" := JSON_stringify host l]> (storage st);
     reads := reads st;
     trace := trace st ++ [SetProducts l; SetItem "products" (JSON_stringify host l)] |}.

(** The entry [p] carries the identifier of the record [u]. *)
Definition same_id (u p : Product) : bool := strict_eq (get "id" p) (get "id" u).

(** The entry [p] carries the identifier [productId]. *)
Definition has_id (productId : string) (p : Product) : bool :=
  strict_eq (get "id" p) (VStr productId).

(** The record [u] with [updatedAt] set to the [k]-th clock reading. *)
Definition stamped (u : Product) (k : nat) : Product :=
  <["updatedAt" := VStr (toISOString (clock host k))]> u.

(** The product [p] is the conversion of the seed record [raw]: its price is
    [priceINR raw], its [id] is the string of the record's, and every field
    that the conversion does not set is the record's. *)
Definition seeded (raw p : Product) : Prop :=
  p !! "price" = Some (priceINR raw)
  /\ p !! "id" = Some (VStr (ToString (NumberToString host) (get "id" raw)))
  /\ forall field : string,
       ~ In field ["id"; "media"; "createdAt"; "updatedAt"; "price"] ->
       p !! field = raw !! field.

(** [st] after a call of [refreshProducts] that leaves the list [l] and the
    error [e], having made the calls [events] between the read of the storage
    and the final [setLoading(false)]. *)
Definition refreshed (l : list Product) (e : option string) (events : list event)
    (st : State) : State :=
  {| products := l; loading := false; error := e;
     storage := storage st; reads := reads st;
     trace := trace st ++ [SetLoading true; SetError None; GetItem "products"]
                ++ events ++ [SetLoading false] |}.

(** The product [p] has the shape the operations rely on: a string [id], a
    numeric [price], and truthy [media], [createdAt] and [updatedAt]. *)
Definition well_formed (p : Product) : Prop :=
  (exists s : string, p !! "id" = Some (VStr s))
  /\ (exists f : float, p !! "price" = Some (VNum f))
  /\ truthy (get "media" p) = true
  /\ truthy (get "createdAt" p) = true
  /\ truthy (get "updatedAt" p) = true.

(** The text [s] contains a decimal digit. *)
Fixpoint has_digit (s : string) : bool :=
  match s with
  | String c r => match digit_val c with Some _ => true | None => has_digit r end
  | EmptyString => false
  end.

(** Every character of [s] is ['.'] or ['-']. *)
Fixpoint dots_and_dashes (s : string) : bool :=
  match s with
  | String c r => (Ascii.eqb c "." || Ascii.eqb c "-") && dots_and_dashes r
  | EmptyString => true
  end.

(** The test [getProductsByCategory] applies to an entry. *)
Definition in_category (category : string) (p : Product) : bool :=
  if String.eqb category "All" then true
  else strict_eq (get "category" p) (VStr category).

(** [st] after the storage slot has been read. *)
Definition slot_read (st : State) : State :=
  {| products := products st; loading := loading st; error := error st;
     storage := storage st; reads := reads st;
     trace := trace st ++ [GetItem "products"] |}.

(** The entry [addProduct] builds from [product] when the clock has been read
    [k] times: the [newProduct] of the source. *)
Definition added (product : Product) (k : nat) : Product :=
  <["updatedAt" := VStr (toISOString (clock host (k + 2)))]>
  (<["createdAt" := VStr (toISOString (clock host (k + 1)))]>
   (<["media" := or_else (get "media" product) (VArr [])]>
    (<["sizes" := or_else (get "sizes" product)
                    (VArr [VStr "S"; VStr "M"; VStr "L"; VStr "XL"])]>
     (<["inStock" := VBool true]>
      (<["id" := VStr (String_of_time (clock host k))]> product))))).

(** ** Properties *)

(** *** Values and fields *)

Lemma strict_eq_string (v : value) (s : string) :
  strict_eq v (VStr s) = true <-> v = VStr s.
Proof.
  destruct v; simpl; split; try discriminate; try congruence.
  - intros H. apply String.eqb_eq in H. now subst.
  - intros [= ->]. apply String.eqb_refl.
Qed.

Lemma get_string (k : string) (o : Product) (s : string) :
  get k o = VStr s <-> o !! k = Some (VStr s).
Proof.
  unfold get. destruct (o !! k) as [v|]; simpl; split; congruence.
Qed.

Lemma field_is_string (k : string) (o : Product) (s : string) :
  strict_eq (get k o) (VStr s) = true <-> o !! k = Some (VStr s).
Proof. rewrite strict_eq_string. apply get_string. Qed.

Lemma get_absent (k : string) (o : Product) : o !! k = None -> get k o = VUndefined.
Proof. unfold get. now intros ->. Qed.

Lemma or_else_absent (k : string) (o : Product) (d : value) :
  o !! k = None -> or_else (get k o) d = d.
Proof. intros H. now rewrite (get_absent _ _ H). Qed.

(** The models of the built-ins on known values: decimal texts round to the
    nearest binary64 (ties to even, [Infinity] beyond the largest one), and
    time values print as the engine prints them. *)
Example parseFloat_samples :
  parseFloat "10.00" = 10%float
  /\ parseFloat "29.99" = 0x1.dfd70a3d70a3dp+4%float
  /\ parseFloat "0.1" = 0x1.999999999999ap-4%float
  /\ parseFloat "9007199254740993" = 9007199254740992%float
  /\ parseFloat "1.7976931348623159e308" = PrimFloat.infinity
  /\ parseFloat "5e-324" = 0x0.0000000000001p-1022%float
  /\ parseFloat "1.2.3" = 0x1.3333333333333p+0%float
  /\ parseFloat "-.5" = (-0.5)%float
  /\ parseFloat "" = PrimFloat.nan
  /\ parseFloat "--5" = PrimFloat.nan
  /\ strip_non_numeric "$1,234.50 USD" = "1234.50"
  /\ PrimFloat.mul (parseFloat (strip_non_numeric "$29.99")) 75
     = 2249.25%float.
Proof. repeat split. Qed.

Example time_samples :
  toISOString 0 = "1970-01-01T00:00:00.000Z"
  /\ toISOString 1709210096789 = "2024-02-29T12:34:56.789Z"
  /\ toISOString (-1) = "1969-12-31T23:59:59.999Z"
  /\ String_of_time 1709210096789 = "1709210096789".
Proof. repeat split. Qed.

(** *** Lists *)

Lemma filter_all {A} (l : list A) : List.filter (fun _ => true) l = l.
Proof. induction l as [|x l IH]; simpl; congruence. Qed.

Lemma filter_split_length {A} (f : A -> bool) (l : list A) :
  length l = (length (List.filter f l) + length (List.filter (fun x => negb (f x)) l))%nat.
Proof.
  induction l as [|x l IH]; simpl; [reflexivity|].
  destruct (f x); simpl; lia.
Qed.

Lemma filter_none {A} (f : A -> bool) (l : list A) :
  (forall x, In x l -> f x = false) -> List.filter (fun x => negb (f x)) l = l.
Proof.
  induction l as [|x l IH]; simpl; intros H; [reflexivity|].
  rewrite (H x (or_introl eq_refl)). simpl. f_equal. apply IH. auto.
Qed.

(** *** Running the effects *)

Lemma ticked_0 (st : State) : ticked 0 st = st.
Proof. destruct st. unfold ticked. simpl. f_equal. lia. Qed.

Lemma ticked_ticked (n m : nat) (st : State) :
  ticked m (ticked n st) = ticked (n + m) st.
Proof. unfold ticked. simpl. f_equal. lia. Qed.

Lemma Date_now_run (st : State) :
  Date_now st = (Ok (clock host (reads st)), ticked 1 st).
Proof. unfold Date_now, ticked. now rewrite Nat.add_1_r. Qed.

Lemma new_Date_run (st : State) :
  new_Date_toISOString st
  = (Ok (VStr (toISOString (clock host (reads st)))), ticked 1 st).
Proof.
  unfold new_Date_toISOString, mbind, M_bind. now rewrite Date_now_run.
Qed.

Lemma commit_run (l : list Product) (st : State) :
  (setProducts l;; saveProductsToStorage l) st = (Ok tt, committed l st).
Proof.
  unfold mbind, M_bind, setProducts, saveProductsToStorage, setItem, committed, log.
  simpl. now rewrite <- app_assoc.
Qed.

(** The [map] of [updateProduct]: it never throws, reads the clock once per
    entry with the identifier of [u], and turns the [i]-th entry into [u]
    stamped with the reading taken for it, or leaves it as it is. *)
Lemma update_map_run (u : Product) (l : list Product) (st : State) :
  exists l' : list Product,
    mapM (fun product =>
            if strict_eq (get "id" product) (get "id" u)
            then updatedAt ← new_Date_toISOString;
                 mret (<["updatedAt" := updatedAt]> u)
            else mret product) l st
    = (Ok l', ticked (length (List.filter (same_id u) l)) st)
    /\ length l' = length l
    /\ forall (i : nat) (p : Product), l !! i = Some p ->
         l' !! i = Some (if same_id u p
                         then stamped u (reads st + length (List.filter (same_id u) (take i l)))
                         else p).
Proof.
  revert st. induction l as [|x l IH]; intros st.
  - exists []. simpl. rewrite ticked_0. repeat split. intros i p H. now destruct i.
  - cbn [mapM]. unfold mbind at 1, M_bind at 1.
    change (strict_eq (get "id" x) (get "id" u)) with (same_id u x).
    cbn [List.filter length]. destruct (same_id u x) eqn:Hx.
    + unfold mbind at 1, M_bind at 1. rewrite new_Date_run.
      destruct (IH (ticked 1 st)) as (l' & Hrun & Hlen & Hl').
      unfold mret at 1, M_ret at 1.
      unfold mbind at 1, M_bind at 1. rewrite Hrun.
      exists (stamped u (reads st) :: l').
      split; [|split].
      * unfold mret, M_ret. cbn [length]. now rewrite ticked_ticked.
      * cbn [length]. now rewrite Hlen.
      * intros [|i] p H; cbn [take List.filter] in *.
        -- injection H as <-. rewrite Hx. cbn [length]. now rewrite Nat.add_0_r.
        -- rewrite Hx. change ((x :: l) !! S i) with (l !! i) in H.
           change ((stamped u (reads st) :: l') !! S i) with (l' !! i).
           rewrite (Hl' i p H). destruct (same_id u p); [|reflexivity].
           do 2 f_equal. cbn [length ticked reads]. lia.
    + unfold mret at 1, M_ret at 1.
      destruct (IH st) as (l' & Hrun & Hlen & Hl').
      unfold mbind at 1, M_bind at 1. rewrite Hrun.
      exists (x :: l'). split; [|split].
      * reflexivity.
      * cbn [length]. now rewrite Hlen.
      * intros [|i] p H; cbn [take List.filter] in *.
        -- injection H as <-. now rewrite Hx.
        -- rewrite Hx. change ((x :: l) !! S i) with (l !! i) in H.
           change ((x :: l') !! S i) with (l' !! i).
           now rewrite (Hl' i p H).
Qed.

Lemma filter_false_nil {A} (f : A -> bool) (l : list A) :
  (forall x, In x l -> f x = false) -> List.filter f l = [].
Proof.
  induction l as [|x l IH]; simpl; intros H; [reflexivity|].
  rewrite (H x (or_introl eq_refl)). apply IH. auto.
Qed.

Lemma updateProduct_run (l : list Product) (u : Product) (st : State) :
  exists l' : list Product,
    updateProduct l u st
    = (Ok tt, committed l' (ticked (length (List.filter (same_id u) l)) st))
    /\ length l' = length l
    /\ forall (i : nat) (p : Product), l !! i = Some p ->
         l' !! i = Some (if same_id u p
                         then stamped u (reads st + length (List.filter (same_id u) (take i l)))
                         else p).
Proof.
  destruct (update_map_run u l st) as (l' & Hrun & Hlen & Hl').
  exists l'. split; [|split]; [|assumption..].
  unfold updateProduct, mbind at 1, M_bind at 1. rewrite Hrun. apply commit_run.
Qed.

Lemma addProduct_run (l : list Product) (product : Product) (st : State) :
  addProduct l product st
  = (Ok tt,
     committed
       (l ++ [<["updatedAt" := VStr (toISOString (clock host (reads st + 2)))]>
              (<["createdAt" := VStr (toISOString (clock host (reads st + 1)))]>
               (<["media" := or_else (get "media" product) (VArr [])]>
                (<["sizes" := or_else (get "sizes" product)
                                (VArr [VStr "S"; VStr "M"; VStr "L"; VStr "XL"])]>
                 (<["inStock" := VBool true]>
                  (<["id" := VStr (String_of_time (clock host (reads st)))]> product)))))])
       (ticked 3 st)).
Proof.
  unfold addProduct.
  unfold mbind at 1, M_bind at 1. rewrite Date_now_run.
  unfold mbind at 1, M_bind at 1. rewrite new_Date_run.
  unfold mbind at 1, M_bind at 1. rewrite new_Date_run.
  rewrite commit_run, !ticked_ticked. cbn [ticked reads].
  now rewrite <- !Nat.add_assoc.
Qed.

Lemma deleteProduct_run (l : list Product) (productId : string) (st : State) :
  deleteProduct l productId st
  = (Ok tt, committed (List.filter (fun p => negb (has_id productId p)) l) st).
Proof. unfold deleteProduct. apply commit_run. Qed.

(** *** The operations of the provider *)

(** C2. [addProduct] appends exactly one entry to the end of the live list.
    Its [id] is the string of the millisecond clock reading [Date.now()]
    returns, whatever [id] the input has; [inStock] is [true]; [sizes] is the
    input's, or ['S','M','L','XL'] when the input has none (or a falsy one);
    [media] is the input's, or the empty array when the input has none;
    [createdAt] and [updatedAt] are the ISO strings of the two clock readings
    that follow; every other field is the input's.  The whole new list is
    then written to the [products] slot of the storage. *)
Theorem addProduct_appends_one (st : State) (product : Product) :
  exists (newProduct : Product) (st' : State),
    ProductContextType.addProduct (ProductProvider st) product st = (Ok tt, st')
    /\ products st' = (products st ++ [newProduct])%list
    /\ newProduct !! "id" = Some (VStr (String_of_time (clock host (reads st))))
    /\ newProduct !! "inStock" = Some (VBool true)
    /\ newProduct !! "sizes"
       = Some (or_else (get "sizes" product)
                 (VArr [VStr "S"; VStr "M"; VStr "L"; VStr "XL"]))
    /\ (product !! "sizes" = None ->
        newProduct !! "sizes" = Some (VArr [VStr "S"; VStr "M"; VStr "L"; VStr "XL"]))
    /\ newProduct !! "media" = Some (or_else (get "media" product) (VArr []))
    /\ (product !! "media" = None -> newProduct !! "media" = Some (VArr []))
    /\ newProduct !! "createdAt"
       = Some (VStr (toISOString (clock host (reads st + 1))))
    /\ newProduct !! "updatedAt"
       = Some (VStr (toISOString (clock host (reads st + 2))))
    /\ (forall field : string,
          ~ In field ["id"; "inStock"; "sizes"; "media"; "createdAt"; "updatedAt"] ->
          newProduct !! field = product !! field)
    /\ loading st' = loading st /\ error st' = error st
    /\ storage st' = <["products" := JSON_stringify host (products st')]> (storage st).
Proof.
  cbn [ProductProvider ProductContextType.addProduct].
  rewrite addProduct_run. eexists _, _. split; [reflexivity|].
  cbn [committed products loading error storage ticked].
  repeat split.
  - now rewrite !lookup_insert_ne, lookup_insert_eq by discriminate.
  - now rewrite !lookup_insert_ne, lookup_insert_eq by discriminate.
  - now rewrite !lookup_insert_ne, lookup_insert_eq by discriminate.
  - intros H. rewrite !lookup_insert_ne, lookup_insert_eq by discriminate.
    now rewrite (or_else_absent _ _ _ H).
  - now rewrite !lookup_insert_ne, lookup_insert_eq by discriminate.
  - intros H. rewrite !lookup_insert_ne, lookup_insert_eq by discriminate.
    now rewrite (or_else_absent _ _ _ H).
  - now rewrite !lookup_insert_ne, lookup_insert_eq by discriminate.
  - now rewrite lookup_insert_eq.
  - intros field H. rewrite !lookup_insert_ne; [reflexivity|..];
      intros <-; apply H; cbn; tauto.
Qed.

(** C3. When the [i]-th entry of the live list carries the identifier of the
    input, [updateProduct] puts in its place the input itself with
    [updatedAt] set to the ISO string of a clock reading taken during the
    call: every other field of the new entry, [createdAt] included, is the
    input's, present exactly when the input has it, and nothing of the old
    entry is kept. *)
Theorem updateProduct_replaces_wholesale
    (st : State) (updatedProduct : Product) (i : nat) (old : Product) :
  products st !! i = Some old ->
  strict_eq (get "id" old) (get "id" updatedProduct) = true ->
  exists (st' : State) (k : nat) (new : Product),
    ProductContextType.updateProduct (ProductProvider st) updatedProduct st = (Ok tt, st')
    /\ products st' !! i = Some new
    /\ new = <["updatedAt" := VStr (toISOString (clock host k))]> updatedProduct
    /\ (reads st <= k < reads st')%nat
    /\ new !! "updatedAt" = Some (VStr (toISOString (clock host k)))
    /\ new !! "createdAt" = updatedProduct !! "createdAt"
    /\ (forall field : string, field <> "updatedAt" ->
          new !! field = updatedProduct !! field)
    /\ length (products st') = length (products st).
Proof.
  intros Hi Hid. cbn [ProductProvider ProductContextType.updateProduct].
  destruct (updateProduct_run (products st) updatedProduct st) as (l' & Hrun & Hlen & Hl').
  rewrite Hrun. specialize (Hl' i old Hi). unfold same_id at 1 in Hl'. rewrite Hid in Hl'.
  eexists _, _, _. split; [reflexivity|].
  cbn [committed products ticked reads]. split; [exact Hl'|].
  split; [reflexivity|]. split; [|split; [|split; [|split]]].
  - split; [lia|].
    rewrite <- (take_drop_middle _ _ _ Hi) at 2.
    rewrite List.filter_app, length_app. cbn [List.filter].
    unfold same_id at 3. rewrite Hid. cbn [length]. lia.
  - apply lookup_insert_eq.
  - now apply lookup_insert_ne.
  - intros field H. apply lookup_insert_ne. congruence.
  - exact Hlen.
Qed.

(** C4. When no entry of the live list carries the identifier of the input,
    [updateProduct] completes normally and leaves the live list as it was,
    entry for entry; the clock is not read, and [loading] and [error] keep
    their values. *)
Theorem updateProduct_no_match_unchanged (st : State) (x : Product) :
  (forall p : Product,
     In p (products st) -> strict_eq (get "id" p) (get "id" x) = false) ->
  exists st' : State,
    ProductContextType.updateProduct (ProductProvider st) x st = (Ok tt, st')
    /\ products st' = products st
    /\ reads st' = reads st
    /\ loading st' = loading st /\ error st' = error st.
Proof.
  intros Hno. cbn [ProductProvider ProductContextType.updateProduct].
  destruct (updateProduct_run (products st) x st) as (l' & Hrun & Hlen & Hl').
  rewrite Hrun. eexists. split; [reflexivity|].
  cbn [committed products ticked reads loading error].
  rewrite (filter_false_nil (same_id x) (products st) Hno). cbn [length].
  repeat split; [|lia].
  apply list_eq. intros i. destruct (products st !! i) as [p|] eqn:Hp.
  - rewrite (Hl' i p Hp). unfold same_id.
    now rewrite (Hno p (proj1 (list_elem_of_In _ _) (list_elem_of_lookup_2 _ _ _ Hp))).
  - apply lookup_ge_None. rewrite Hlen. now apply lookup_ge_None.
Qed.

(** C5, as the code has it.  [deleteProduct(id)] keeps, in their order,
    exactly the entries whose [id] field is not the string [id], and removes
    every entry that carries it: the length of the list decreases by the
    number of entries with that identifier, which is one when exactly one
    entry carries it and zero when none does. *)
Theorem deleteProduct_removes_every_match (st : State) (productId : string) :
  exists st' : State,
    ProductContextType.deleteProduct (ProductProvider st) productId st = (Ok tt, st')
    /\ products st' = List.filter (fun p => negb (has_id productId p)) (products st)
    /\ (forall p : Product,
          has_id productId p = true <-> p !! "id" = Some (VStr productId))
    /\ (forall p : Product,
          In p (products st') <-> In p (products st) /\ has_id productId p = false)
    /\ length (products st)
       = (length (products st') + length (List.filter (has_id productId) (products st)))%nat
    /\ (length (List.filter (has_id productId) (products st)) = 1%nat ->
        length (products st) = S (length (products st')))
    /\ ((forall p : Product, In p (products st) -> has_id productId p = false) ->
        products st' = products st).
Proof.
  cbn [ProductProvider ProductContextType.deleteProduct].
  rewrite deleteProduct_run. eexists. split; [reflexivity|].
  cbn [committed products]. split; [reflexivity|]. split; [|split; [|split; [|split]]].
  - intros p. apply field_is_string.
  - intros p. rewrite List.filter_In, Bool.negb_true_iff. reflexivity.
  - rewrite (filter_split_length (has_id productId) (products st)). lia.
  - intros H. rewrite (filter_split_length (has_id productId) (products st)). lia.
  - apply filter_none.
Qed.

(** C6. [getProductsByCategory] changes nothing of the state (no setter is
    called, the storage is neither read nor written) and returns the whole
    live list for the sentinel ["All"]; for any other argument it returns, in
    their order, exactly the entries whose [category] field is that very
    string. *)
Theorem getProductsByCategory_filters (st : State) (category : string) :
  exists result : list Product,
    ProductContextType.getProductsByCategory (ProductProvider st) category st
    = (Ok result, st)
    /\ (category = "All" -> result = products st)
    /\ (category <> "All" ->
        result = List.filter (fun p => strict_eq (get "category" p) (VStr category))
                             (products st)
        /\ forall p : Product,
             In p result <->
             In p (products st) /\ p !! "category" = Some (VStr category)).
Proof.
  cbn [ProductProvider ProductContextType.getProductsByCategory].
  unfold getProductsByCategory. eexists. split; [reflexivity|]. split.
  - intros ->. apply filter_all.
  - intros H. apply String.eqb_neq in H. rewrite H. split; [reflexivity|].
    intros p. now rewrite List.filter_In, field_is_string.
Qed.

(** C8. Each of [addProduct], [updateProduct] and [deleteProduct] completes
    with the [products] slot of the storage holding the serialization of the
    whole live list it has just set, whatever the slot held before; no other
    slot is touched. *)
Theorem mutations_persist_the_whole_list (st : State) :
  (forall product : Product, exists st' : State,
     ProductContextType.addProduct (ProductProvider st) product st = (Ok tt, st')
     /\ storage st' = <["products" := JSON_stringify host (products st')]> (storage st)
     /\ storage st' !! "products" = Some (JSON_stringify host (products st')))
  /\ (forall updatedProduct : Product, exists st' : State,
     ProductContextType.updateProduct (ProductProvider st) updatedProduct st = (Ok tt, st')
     /\ storage st' = <["products" := JSON_stringify host (products st')]> (storage st)
     /\ storage st' !! "products" = Some (JSON_stringify host (products st')))
  /\ (forall productId : string, exists st' : State,
     ProductContextType.deleteProduct (ProductProvider st) productId st = (Ok tt, st')
     /\ storage st' = <["products" := JSON_stringify host (products st')]> (storage st)
     /\ storage st' !! "products" = Some (JSON_stringify host (products st'))).
Proof.
  cbn [ProductProvider ProductContextType.addProduct
       ProductContextType.updateProduct ProductContextType.deleteProduct].
  split; [|split].
  - intros product. rewrite addProduct_run. eexists. split; [reflexivity|].
    cbn [committed products storage ticked]. split; [reflexivity|apply lookup_insert_eq].
  - intros u. destruct (updateProduct_run (products st) u st) as (l' & -> & _).
    eexists. split; [reflexivity|].
    cbn [committed products storage ticked]. split; [reflexivity|apply lookup_insert_eq].
  - intros productId. rewrite deleteProduct_run. eexists. split; [reflexivity|].
    cbn [committed products storage]. split; [reflexivity|apply lookup_insert_eq].
Qed.

(** C9. Outside a provider [useProducts] throws an [Error] whose message says
    where it must be used; it returns the context value only inside one. *)
Theorem useProducts_outside_provider_throws :
  useProducts None = Throw (Error "useProducts must be used within a ProductProvider")
  /\ (forall r : ProductContextType.t, useProducts None <> Ok r)
  /\ (forall st : State, useProducts (Some st) = Ok (ProductProvider st)).
Proof. repeat split. intros r. discriminate. Qed.

(** *** Seeding *)

Lemma mapM_Forall2 {A B} (f : A -> M B) (R : A -> B -> Prop) :
  (forall x st, exists y st', f x st = (Ok y, st') /\ R x y) ->
  forall l st, exists l' st', mapM f l st = (Ok l', st') /\ Forall2 R l l'.
Proof.
  intros Hf. induction l as [|x l IH]; intros st.
  - exists [], st. split; [reflexivity|constructor].
  - destruct (Hf x st) as (y & st1 & Hy & HR).
    destruct (IH st1) as (l' & st2 & Hl & HF).
    exists (y :: l'), st2. split; [|now constructor].
    cbn [mapM]. unfold mbind at 1, M_bind at 1. rewrite Hy.
    unfold mbind at 1, M_bind at 1. now rewrite Hl.
Qed.

Lemma or_elseM_run (a : value) (st : State) :
  exists v st', or_elseM a new_Date_toISOString st = (Ok v, st').
Proof.
  unfold or_elseM. destruct (truthy a).
  - now exists a, st.
  - rewrite new_Date_run. eauto.
Qed.

Lemma convertToProduct_run (product : Product) (st : State) :
  exists createdAt updatedAt st',
    convertToProduct product st
    = (Ok (<["updatedAt" := updatedAt]>
           (<["createdAt" := createdAt]>
            (<["media" := or_else (get "media" product) (VArr [])]>
             (<["id" := VStr (ToString (NumberToString host) (get "id" product))]>
              product)))), st').
Proof.
  unfold convertToProduct.
  destruct (or_elseM_run (get "createdAt" product) st) as (c & st1 & Hc).
  destruct (or_elseM_run (get "updatedAt" product) st1) as (u & st2 & Hu).
  exists c, u, st2.
  unfold mbind at 1, M_bind at 1. rewrite Hc.
  unfold mbind at 1, M_bind at 1. now rewrite Hu.
Qed.

Lemma convertToINR_run (raws : list Product) (st : State) :
  exists l st', convertToINR raws st = (Ok l, st') /\ Forall2 seeded raws l.
Proof.
  apply mapM_Forall2. clear raws st. intros raw st.
  destruct (convertToProduct_run raw st) as (c & u & st' & Hrun).
  eexists _, st'. unfold mbind, M_bind. rewrite Hrun. split; [reflexivity|].
  repeat split.
  - apply lookup_insert_eq.
  - now rewrite !lookup_insert_ne, lookup_insert_eq by discriminate.
  - intros field H. rewrite !lookup_insert_ne; [reflexivity|..];
      intros <-; apply H; cbn; tauto.
Qed.

(** C1. Converting seed records never fails and yields one product per
    record, in order, whose price is the record's price times 75: a price
    given as text is first stripped of every character other than digits,
    ['.'] and ['-'] and then read by [parseFloat], so both ["$10.00"] and the
    number 10 become 750.  The seed list is the concatenation of the
    conversions of the four category datasets. *)
Theorem seed_price_is_source_times_75 :
  (forall (raws : list Product) (st : State),
     exists l st', convertToINR raws st = (Ok l, st') /\ Forall2 seeded raws l)
  /\ (forall (raw : Product) (s : string),
        priceINR (<["price" := VStr s]> raw)
        = VNum (PrimFloat.mul (parseFloat (strip_non_numeric s)) 75))
  /\ (forall (raw : Product) (f : float),
        priceINR (<["price" := VNum f]> raw) = VNum (PrimFloat.mul f 75))
  /\ strip_non_numeric "$10.00" = "10.00"
  /\ (forall raw : Product, priceINR (<["price" := VStr "$10.00"]> raw) = VNum 750)
  /\ (forall raw : Product, priceINR (<["price" := VNum 10]> raw) = VNum 750)
  /\ exists mens womens kids watches : list Product,
       initialProducts = (mens ++ womens ++ kids ++ watches)%list
       /\ Forall2 seeded mensProducts mens
       /\ Forall2 seeded womensProducts womens
       /\ Forall2 seeded kidsProducts kids
       /\ Forall2 seeded watchesProducts watches.
Proof.
  split; [exact convertToINR_run|].
  assert (Hget : forall (raw : Product) v, get "price" (<["price" := v]> raw) = v).
  { intros raw v. unfold get. now rewrite lookup_insert_eq. }
  split; [|split; [|split; [|split; [|split]]]].
  - intros raw s. unfold priceINR. now rewrite Hget.
  - intros raw f. unfold priceINR. now rewrite Hget.
  - reflexivity.
  - intros raw. unfold priceINR. rewrite Hget. reflexivity.
  - intros raw. unfold priceINR. rewrite Hget. reflexivity.
  - unfold initialProducts, load_initialProducts.
    destruct (convertToINR_run mensProducts at_load) as (l1 & st1 & H1 & F1).
    destruct (convertToINR_run womensProducts st1) as (l2 & st2 & H2 & F2).
    destruct (convertToINR_run kidsProducts st2) as (l3 & st3 & H3 & F3).
    destruct (convertToINR_run watchesProducts st3) as (l4 & st4 & H4 & F4).
    exists l1, l2, l3, l4.
    unfold mbind at 1, M_bind at 1. rewrite H1.
    unfold mbind at 1, M_bind at 1. rewrite H2.
    unfold mbind at 1, M_bind at 1. rewrite H3.
    unfold mbind at 1, M_bind at 1. rewrite H4.
    now repeat split.
Qed.

(** *** Refreshing *)

Ltac run_refresh :=
  unfold refreshProducts, try_catch_finally, mbind, M_bind,
    setLoading, setError, getItem, setProducts, console_error, parse, log;
  cbn [products loading error storage reads trace].

Ltac same_trace :=
  unfold refreshed; cbn [products loading error storage reads trace];
  rewrite <- ?app_assoc; reflexivity.

Lemma refresh_seed (st : State) :
  storage st !! "products" = None \/ storage st !! "products" = Some "" ->
  refreshProducts st
  = (Ok tt, refreshed initialProducts None [SetProducts initialProducts] st).
Proof.
  intros [H|H]; run_refresh; rewrite H; cbn; same_trace.
Qed.

Lemma refresh_adopt (st : State) (text : string) (l : list Product) :
  storage st !! "products" = Some text -> text <> "" ->
  JSON_parse host text = Some l ->
  refreshProducts st = (Ok tt, refreshed l None [SetProducts l] st).
Proof.
  intros H Hne Hp. apply String.eqb_neq in Hne.
  run_refresh. rewrite H, Hne, Hp. cbn. same_trace.
Qed.

Lemma refresh_fail (st : State) (text : string) :
  storage st !! "products" = Some text -> text <> "" ->
  JSON_parse host text = None ->
  refreshProducts st
  = (Ok tt,
     refreshed (products st) (Some "Failed to refresh products")
       [SetError (Some "Failed to refresh products");
        ConsoleError "Error refreshing products:"] st).
Proof.
  intros H Hne Hp. apply String.eqb_neq in Hne.
  run_refresh. rewrite H, Hne, Hp. cbn. same_trace.
Qed.

(** Whatever the storage holds, [refreshProducts] completes normally, with
    [loading] false, the storage as it was, and a trace that starts with
    [setLoading(true)], [setError(null)] and the read of the slot. *)
Lemma refresh_total (st : State) :
  exists l e events,
    refreshProducts st = (Ok tt, refreshed l e events st).
Proof.
  destruct (storage st !! "products") as [text|] eqn:H.
  - destruct (String.eqb_spec text "") as [->|Hne].
    + eexists _, _, _. apply refresh_seed. now right.
    + destruct (JSON_parse host text) as [l|] eqn:Hp.
      * eexists _, _, _. now apply (refresh_adopt st text l).
      * eexists _, _, _. now apply (refresh_fail st text).
  - eexists _, _, _. apply refresh_seed. now left.
Qed.

(** C7, as the code has it.  [refreshProducts] always completes normally with
    [loading] false and the storage untouched.  When the slot holds a
    non-empty text that [JSON.parse] rejects, the live list is left as it
    was and [error] is the message ["Failed to refresh products"].  A slot
    that holds the empty string is not parsed at all: it is treated as an
    absent one, the list becomes the seed list and [error] is [null]. *)
Theorem refreshProducts_unparseable_snapshot (st : State) :
  exists st' : State,
    ProductContextType.refreshProducts (ProductProvider st) st = (Ok tt, st')
    /\ loading st' = false
    /\ storage st' = storage st
    /\ (forall text : string,
          storage st !! "products" = Some text -> text <> "" ->
          JSON_parse host text = None ->
          products st' = products st
          /\ error st' = Some "Failed to refresh products"
          /\ "Failed to refresh products" <> "")
    /\ (storage st !! "products" = Some "" ->
        products st' = initialProducts /\ error st' = None).
Proof.
  cbn [ProductProvider ProductContextType.refreshProducts].
  destruct (refresh_total st) as (l & e & events & Hrun).
  eexists. split; [exact Hrun|]. split; [reflexivity|]. split; [reflexivity|]. split.
  - intros text H Hne Hp. rewrite (refresh_fail st text H Hne Hp) in Hrun.
    injection Hrun as <- <- _. now repeat split.
  - intros H. rewrite (refresh_seed st (or_intror H)) in Hrun.
    injection Hrun as <- <- _. now split.
Qed.

(** C10. [refreshProducts] calls [setError(null)] before it reads the
    storage, so whenever the refresh succeeds (the slot is absent or empty
    and the seed list is taken, or the slot parses and its list is taken)
    [error] is [null] afterwards, whatever it was before. *)
Theorem refreshProducts_clears_error (st : State) :
  exists (st' : State) (rest : list event),
    ProductContextType.refreshProducts (ProductProvider st) st = (Ok tt, st')
    /\ trace st'
       = (trace st ++ [SetLoading true; SetError None; GetItem "products"] ++ rest)%list
    /\ (storage st !! "products" = None \/ storage st !! "products" = Some "" ->
        error st' = None /\ products st' = initialProducts)
    /\ (forall (text : string) (l : list Product),
          storage st !! "products" = Some text -> text <> "" ->
          JSON_parse host text = Some l ->
          error st' = None /\ products st' = l).
Proof.
  cbn [ProductProvider ProductContextType.refreshProducts].
  destruct (refresh_total st) as (l & e & events & Hrun).
  eexists _, _. split; [exact Hrun|]. split; [reflexivity|]. split.
  - intros H. rewrite (refresh_seed st H) in Hrun.
    injection Hrun as <- <- _. now split.
  - intros text l0 H Hne Hp. rewrite (refresh_adopt st text l0 H Hne Hp) in Hrun.
    injection Hrun as <- <- _. now split.
Qed.

(** ** Further properties of the seed conversion *)

Lemma append_nonempty (a b : string) (c : ascii) : (a ++ String c b)%string <> "".
Proof. destruct a; discriminate. Qed.

Lemma toISOString_nonempty (t : Z) : toISOString t <> "".
Proof.
  unfold toISOString. destruct (civil_from_days (t / 86400000)) as [[y m] d].
  apply append_nonempty.
Qed.

Lemma or_elseM_cases (a : value) (st : State) :
  exists v n,
    or_elseM a new_Date_toISOString st = (Ok v, ticked n st)
    /\ truthy v = true
    /\ (truthy a = true -> v = a /\ n = 0%nat)
    /\ (truthy a = false ->
        v = VStr (toISOString (clock host (reads st))) /\ n = 1%nat).
Proof.
  unfold or_elseM. destruct (truthy a) eqn:Ha.
  - exists a, 0%nat. rewrite ticked_0. repeat split; try assumption; discriminate.
  - rewrite new_Date_run. eexists _, 1%nat. split; [reflexivity|].
    split; [|split; [discriminate|now split]].
    cbn [truthy]. apply Bool.negb_true_iff, String.eqb_neq, toISOString_nonempty.
Qed.

Lemma truthy_or_else_array (a : value) : truthy (or_else a (VArr [])) = true.
Proof. unfold or_else. now destruct (truthy a) eqn:Ha. Qed.

Lemma or_else_truthy (a d : value) : truthy a = true -> or_else a d = a.
Proof. unfold or_else. now intros ->. Qed.

(** X1. A seed record that already has (truthy) [createdAt] and [updatedAt]
    keeps both: [convertToProduct] does not read the clock and leaves the
    state as it was. *)
Theorem convertToProduct_keeps_timestamps (product : Product) (st : State) :
  truthy (get "createdAt" product) = true ->
  truthy (get "updatedAt" product) = true ->
  exists converted : Product,
    convertToProduct product st = (Ok converted, st)
    /\ converted !! "createdAt" = Some (get "createdAt" product)
    /\ converted !! "updatedAt" = Some (get "updatedAt" product).
Proof.
  intros Hc Hu. unfold convertToProduct, or_elseM. rewrite Hc, Hu.
  eexists. split; [reflexivity|]. split.
  - now rewrite lookup_insert_ne, lookup_insert_eq by discriminate.
  - apply lookup_insert_eq.
Qed.

(** X2. A seed record with no [id], [media], [createdAt] and [updatedAt]
    gets the identifier ["undefined"], an empty [media] array, and the ISO
    strings of two successive clock readings as its timestamps; nothing else
    of the record changes. *)
Theorem convertToProduct_fills_missing_fields (product : Product) (st : State) :
  product !! "id" = None -> product !! "media" = None ->
  product !! "createdAt" = None -> product !! "updatedAt" = None ->
  convertToProduct product st
  = (Ok (<["updatedAt" := VStr (toISOString (clock host (reads st + 1)))]>
         (<["createdAt" := VStr (toISOString (clock host (reads st)))]>
          (<["media" := VArr []]>
           (<["id" := VStr "undefined"]> product)))),
     ticked 2 st).
Proof.
  intros Hi Hm Hc Hu. unfold convertToProduct, or_elseM.
  rewrite (get_absent _ _ Hi), (get_absent _ _ Hm), (get_absent _ _ Hc), (get_absent _ _ Hu).
  cbn [truthy or_else ToString].
  unfold mbind at 1, M_bind at 1. rewrite new_Date_run.
  unfold mbind at 1, M_bind at 1. rewrite new_Date_run.
  rewrite ticked_ticked. cbn [ticked reads]. reflexivity.
Qed.

(** X3. [convertToProduct] is idempotent: a converted product converts to
    itself, without any clock reading. *)
Theorem convertToProduct_idempotent (product : Product) (st st2 : State) :
  exists (converted : Product) (st1 : State),
    convertToProduct product st = (Ok converted, st1)
    /\ convertToProduct converted st2 = (Ok converted, st2).
Proof.
  destruct (or_elseM_cases (get "createdAt" product) st) as (c & n & Hc & Tc & _).
  destruct (or_elseM_cases (get "updatedAt" product) (ticked n st)) as (u & m & Hu & Tu & _).
  eexists _, _. split.
  - unfold convertToProduct. unfold mbind at 1, M_bind at 1. rewrite Hc.
    unfold mbind at 1, M_bind at 1. rewrite Hu. reflexivity.
  - set (converted := <["updatedAt" := u]> _).
    assert (Gu : converted !! "updatedAt" = Some u) by apply lookup_insert_eq.
    assert (Gc : converted !! "createdAt" = Some c).
    { unfold converted. now rewrite lookup_insert_ne, lookup_insert_eq by discriminate. }
    assert (Gm : converted !! "media" = Some (or_else (get "media" product) (VArr []))).
    { unfold converted. now rewrite !lookup_insert_ne, lookup_insert_eq by discriminate. }
    assert (Gi : converted !! "id"
                 = Some (VStr (ToString (NumberToString host) (get "id" product)))).
    { unfold converted. now rewrite !lookup_insert_ne, lookup_insert_eq by discriminate. }
    unfold convertToProduct, or_elseM, get. rewrite Gu, Gc, Gm, Gi. cbn [default from_option id].
    rewrite Tc, Tu. cbn [ToString].
    rewrite (or_else_truthy _ _ (truthy_or_else_array _)).
    unfold mbind, M_bind, mret, M_ret.
    rewrite (insert_id converted "id" _ Gi), (insert_id converted "media" _ Gm),
      (insert_id converted "createdAt" _ Gc), (insert_id converted "updatedAt" _ Gu).
    reflexivity.
Qed.

Lemma convertToINR_well_formed (raws : list Product) (st : State) :
  exists l st',
    convertToINR raws st = (Ok l, st') /\ Forall2 (fun _ p => well_formed p) raws l.
Proof.
  apply mapM_Forall2. clear raws st. intros raw st.
  destruct (or_elseM_cases (get "createdAt" raw) st) as (c & n & Hc & Tc & _).
  destruct (or_elseM_cases (get "updatedAt" raw) (ticked n st)) as (u & m & Hu & Tu & _).
  eexists _, _. split.
  - unfold mbind at 1, M_bind at 1. unfold convertToProduct.
    unfold mbind at 1, M_bind at 1. rewrite Hc.
    unfold mbind at 1, M_bind at 1. rewrite Hu. reflexivity.
  - unfold well_formed, get. repeat split.
    + eexists. now rewrite !lookup_insert_ne, lookup_insert_eq by discriminate.
    + eexists. unfold priceINR. apply lookup_insert_eq.
    + rewrite !lookup_insert_ne, lookup_insert_eq by discriminate.
      apply truthy_or_else_array.
    + now rewrite !lookup_insert_ne, lookup_insert_eq by discriminate.
    + now rewrite !lookup_insert_ne, lookup_insert_eq by discriminate.
Qed.

Lemma Forall2_right {A B} (P : B -> Prop) (l : list A) (k : list B) :
  Forall2 (fun _ y => P y) l k -> Forall P k.
Proof. induction 1; constructor; assumption. Qed.

Lemma initialProducts_parts :
  exists l1 l2 l3 l4 : list Product,
    initialProducts = (l1 ++ l2 ++ l3 ++ l4)%list
    /\ Forall2 (fun _ p => well_formed p) mensProducts l1
    /\ Forall2 (fun _ p => well_formed p) womensProducts l2
    /\ Forall2 (fun _ p => well_formed p) kidsProducts l3
    /\ Forall2 (fun _ p => well_formed p) watchesProducts l4.
Proof.
  unfold initialProducts, load_initialProducts.
  destruct (convertToINR_well_formed mensProducts at_load) as (l1 & st1 & H1 & F1).
  destruct (convertToINR_well_formed womensProducts st1) as (l2 & st2 & H2 & F2).
  destruct (convertToINR_well_formed kidsProducts st2) as (l3 & st3 & H3 & F3).
  destruct (convertToINR_well_formed watchesProducts st3) as (l4 & st4 & H4 & F4).
  exists l1, l2, l3, l4.
  unfold mbind at 1, M_bind at 1. rewrite H1.
  unfold mbind at 1, M_bind at 1. rewrite H2.
  unfold mbind at 1, M_bind at 1. rewrite H3.
  unfold mbind at 1, M_bind at 1. rewrite H4.
  now repeat split.
Qed.

(** X4. Every product of the seed list has a string [id], a numeric [price]
    and truthy [media], [createdAt] and [updatedAt], whatever the seed
    records hold. *)
Theorem initialProducts_well_formed : Forall well_formed initialProducts.
Proof.
  destruct initialProducts_parts as (l1 & l2 & l3 & l4 & -> & F1 & F2 & F3 & F4).
  rewrite !Forall_app. repeat split; eapply Forall2_right; eassumption.
Qed.

(** X5. The seed list has exactly one product per seed record of the four
    datasets. *)
Theorem initialProducts_length :
  length initialProducts
  = (length mensProducts + length womensProducts
     + length kidsProducts + length watchesProducts)%nat.
Proof.
  destruct initialProducts_parts as (l1 & l2 & l3 & l4 & -> & F1 & F2 & F3 & F4).
  rewrite !length_app.
  rewrite <- (Forall2_length _ _ _ F1), <- (Forall2_length _ _ _ F2),
    <- (Forall2_length _ _ _ F3), <- (Forall2_length _ _ _ F4). lia.
Qed.

Lemma dot_or_dash (c : ascii) :
  Ascii.eqb c "." || Ascii.eqb c "-" = true -> c = "."%char \/ c = "-"%char.
Proof.
  intros H. apply Bool.orb_true_iff in H as [H|H]; apply Ascii.eqb_eq in H; auto.
Qed.

Lemma strip_without_digits (s : string) :
  has_digit s = false -> dots_and_dashes (strip_non_numeric s) = true.
Proof.
  induction s as [|c r IH]; cbn [has_digit strip_non_numeric]; [reflexivity|].
  unfold keeps. destruct (digit_val c); [discriminate|]. intros H.
  destruct (Ascii.eqb c "." || Ascii.eqb c "-") eqn:Hc; cbn [dots_and_dashes]; auto.
  rewrite Hc. now apply IH.
Qed.

Lemma span_digits_stops (s : string) (acc n : Z) :
  dots_and_dashes s = true -> span_digits s acc n = (acc, n, s).
Proof.
  destruct s as [|c r]; [reflexivity|]. cbn [dots_and_dashes]. intros H.
  apply Bool.andb_true_iff in H as [H _].
  destruct (dot_or_dash c H) as [->| ->]; reflexivity.
Qed.

Lemma no_digit_no_number (s : string) :
  dots_and_dashes s = true -> parseFloat s = PrimFloat.nan.
Proof.
  assert (Hinf : forall r, dots_and_dashes r = true -> String.prefix "Infinity" r = false).
  { intros [|c r]; [reflexivity|]. cbn [dots_and_dashes]. intros H.
    apply Bool.andb_true_iff in H as [H _].
    destruct (dot_or_dash c H) as [->| ->]; reflexivity. }
  assert (Hfrac : forall r, dots_and_dashes r = true ->
            match r with
            | String "." t => span_digits t 0 0
            | _ => (0, 0, r)
            end = (0, 0, match r with String "." t => t | _ => r end)).
  { intros [|c t]; [reflexivity|]. cbn [dots_and_dashes]. intros H.
    apply Bool.andb_true_iff in H as [Hc Ht].
    destruct (dot_or_dash c Hc) as [->| ->]; [|reflexivity].
    apply (span_digits_stops t 0 0 Ht). }
  destruct s as [|c r]; [reflexivity|]. intros H. pose proof H as H0.
  cbn [dots_and_dashes] in H. apply Bool.andb_true_iff in H as [Hc Hr].
  unfold parseFloat.
  destruct (dot_or_dash c Hc) as [->| ->].
  - change (trim_start (String "." r)) with (String "." r).
    unfold decimal_prefix. cbv beta iota zeta.
    rewrite (Hinf _ H0), (span_digits_stops _ 0 0 H0), (Hfrac _ H0). reflexivity.
  - change (trim_start (String "-" r)) with (String "-" r).
    unfold decimal_prefix. cbv beta iota zeta.
    rewrite (Hinf _ Hr), (span_digits_stops _ 0 0 Hr), (Hfrac _ Hr). reflexivity.
Qed.

(** X6. A seed record with no [price] field, or whose [price] is a text
    without any decimal digit, is given the price [NaN]. *)
Theorem priceINR_not_a_number (raw : Product) :
  raw !! "price" = None
  \/ (exists s : string, raw !! "price" = Some (VStr s) /\ has_digit s = false) ->
  priceINR raw = VNum PrimFloat.nan.
Proof.
  unfold priceINR, get. intros [->|(s & -> & Hs)]; [reflexivity|].
  cbn [default from_option id].
  now rewrite (no_digit_no_number _ (strip_without_digits s Hs)).
Qed.


(** ** Further properties of the provider *)

Lemma initial_state_run (st : State) :
  initial_state st
  = (match storage st !! "products" with
     | Some text =>
         if String.eqb text "" then Ok initialProducts
         else match JSON_parse host text with
              | Some l => Ok l
              | None => Throw SyntaxError
              end
     | None => Ok initialProducts
     end, slot_read st).
Proof.
  unfold initial_state, mbind, M_bind, getItem, slot_read, log, parse.
  cbn [products loading error storage reads trace].
  destruct (storage st !! "products") as [text|]; [|reflexivity].
  destruct (String.eqb text ""); [reflexivity|].
  now destruct (JSON_parse host text).
Qed.

(** X8. Mounting the provider over a slot that holds a non-empty text which
    does not parse throws the [SyntaxError] of [JSON.parse]: unlike
    [refreshProducts], the initialiser of the [products] state catches
    nothing.  The storage is left as it was. *)
Theorem initial_state_corrupt_snapshot_throws (st : State) (text : string) :
  storage st !! "products" = Some text -> text <> "" ->
  JSON_parse host text = None ->
  exists st' : State,
    initial_state st = (Throw SyntaxError, st')
    /\ storage st' = storage st
    /\ exists st'' : State,
         refreshProducts st = (Ok tt, st'')
         /\ products st'' = products st.
Proof.
  intros H Hne Hp. rewrite initial_state_run, H, Hp.
  apply String.eqb_neq in Hne as Hb. rewrite Hb.
  eexists. split; [reflexivity|]. split; [reflexivity|].
  rewrite (refresh_fail st text H Hne Hp). eexists. split; reflexivity.
Qed.

(** X9. Whenever mounting over the current storage succeeds with a list,
    [refreshProducts] sets that same list and leaves no error: a refresh
    brings the provider to what a fresh mount would show. *)
Theorem refreshProducts_agrees_with_mount (st st1 : State) (l : list Product) :
  initial_state st = (Ok l, st1) ->
  exists st2 : State,
    refreshProducts st = (Ok tt, st2)
    /\ products st2 = l /\ error st2 = None /\ loading st2 = false.
Proof.
  rewrite initial_state_run. intros H.
  destruct (storage st !! "products") as [text|] eqn:Hs.
  - destruct (String.eqb_spec text "") as [->|Hne].
    + injection H as <- _. rewrite (refresh_seed st (or_intror Hs)).
      eexists. repeat split.
    + destruct (JSON_parse host text) as [l0|] eqn:Hp; [|discriminate].
      injection H as <- _. rewrite (refresh_adopt st text l0 Hs Hne Hp).
      eexists. repeat split.
  - injection H as <- _. rewrite (refresh_seed st (or_introl Hs)).
    eexists. repeat split.
Qed.

Lemma addProduct_added (l : list Product) (product : Product) (st : State) :
  addProduct l product st
  = (Ok tt, committed (l ++ [added product (reads st)]) (ticked 3 st)).
Proof. apply addProduct_run. Qed.

Lemma added_id (product : Product) (k : nat) :
  get "id" (added product k) = VStr (String_of_time (clock host k)).
Proof.
  unfold get, added. now rewrite !lookup_insert_ne, lookup_insert_eq by discriminate.
Qed.

Lemma added_category (product : Product) (k : nat) :
  get "category" (added product k) = get "category" product.
Proof. unfold get, added. now rewrite !lookup_insert_ne by discriminate. Qed.

Lemma has_id_added (productId : string) (product : Product) (k : nat) :
  has_id productId (added product k)
  = String.eqb (String_of_time (clock host k)) productId.
Proof. unfold has_id. now rewrite added_id. Qed.

(** X10. After [addProduct], the category filter of the next render returns
    what it returned before, followed by the new entry exactly when the input
    is in the category (always for ["All"]): the entry keeps the [category]
    of the input and comes last. *)
Theorem addProduct_then_read_back (st : State) (product : Product) (category : string) :
  exists st1 : State,
    ProductContextType.addProduct (ProductProvider st) product st = (Ok tt, st1)
    /\ ProductContextType.getProductsByCategory (ProductProvider st1) category st1
       = (Ok (List.filter (in_category category) (products st)
              ++ (if in_category category product
                  then [added product (reads st)] else []))%list,
          st1).
Proof.
  cbn [ProductProvider ProductContextType.addProduct].
  rewrite addProduct_added. eexists. split; [reflexivity|].
  cbn [ProductProvider ProductContextType.getProductsByCategory committed products].
  unfold getProductsByCategory, mret, M_ret. do 2 f_equal.
  change (fun product0 : Product =>
            if String.eqb category "All" then true
            else strict_eq (get "category" product0) (VStr category))
    with (in_category category).
  rewrite List.filter_app. cbn [List.filter]. f_equal.
  unfold in_category. now rewrite added_category.
Qed.

(** X11. Two additions made through the callbacks of one render both start
    from that render's list, so only the second entry is kept, in the state
    and in the storage; made through the callbacks of successive renders they
    are both kept, in order. *)
Theorem addProduct_twice (st : State) (p1 p2 : Product) :
  (exists st2 : State,
     (ProductContextType.addProduct (ProductProvider st) p1;;
      ProductContextType.addProduct (ProductProvider st) p2) st = (Ok tt, st2)
     /\ products st2 = (products st ++ [added p2 (reads st + 3)])%list
     /\ storage st2 !! "products" = Some (JSON_stringify host (products st2)))
  /\ (exists st1 st2 : State,
        ProductContextType.addProduct (ProductProvider st) p1 st = (Ok tt, st1)
        /\ ProductContextType.addProduct (ProductProvider st1) p2 st1 = (Ok tt, st2)
        /\ products st2
           = (products st ++ [added p1 (reads st); added p2 (reads st + 3)])%list
        /\ storage st2 !! "products" = Some (JSON_stringify host (products st2))).
Proof.
  cbn [ProductProvider ProductContextType.addProduct]. split.
  - unfold mbind, M_bind. rewrite !addProduct_added.
    eexists. split; [reflexivity|].
    cbn [committed products storage ticked reads].
    split; [reflexivity|apply lookup_insert_eq].
  - rewrite addProduct_added. eexists _, _. split; [reflexivity|].
    cbn [committed products]. rewrite addProduct_added.
    split; [reflexivity|]. cbn [committed products storage ticked reads].
    rewrite <- app_assoc. split; [reflexivity|apply lookup_insert_eq].
Qed.

(** X12. When the clock gives the same millisecond to two successive
    additions, both new entries carry the same identifier, and deleting that
    identifier removes them both: the list is back to the entries of the
    first render that do not carry it. *)
Theorem addProduct_collision (st : State) (p1 p2 : Product) :
  clock host (reads st) = clock host (reads st + 3) ->
  exists st1 st2 st3 : State,
    ProductContextType.addProduct (ProductProvider st) p1 st = (Ok tt, st1)
    /\ ProductContextType.addProduct (ProductProvider st1) p2 st1 = (Ok tt, st2)
    /\ get "id" (added p1 (reads st)) = get "id" (added p2 (reads st + 3))
    /\ ProductContextType.deleteProduct (ProductProvider st2)
         (String_of_time (clock host (reads st))) st2 = (Ok tt, st3)
    /\ products st3
       = List.filter
           (fun p => negb (has_id (String_of_time (clock host (reads st))) p))
           (products st).
Proof.
  intros Hclock. cbn [ProductProvider ProductContextType.addProduct
                      ProductContextType.deleteProduct].
  rewrite addProduct_added. eexists _, _, _. split; [reflexivity|].
  cbn [committed products]. rewrite addProduct_added. split; [reflexivity|].
  cbn [committed products ticked reads]. rewrite !added_id, <- Hclock.
  split; [reflexivity|]. rewrite deleteProduct_run. split; [reflexivity|].
  cbn [committed products]. rewrite !List.filter_app. cbn [List.filter].
  rewrite !has_id_added, <- Hclock, String.eqb_refl. cbn [negb].
  now rewrite !app_nil_r.
Qed.

(** X13. When no entry carries the identifier the clock is about to give,
    adding a product and then deleting its identifier gives back the list as
    it was. *)
Theorem addProduct_then_deleteProduct (st : State) (product : Product) :
  (forall p : Product, In p (products st) ->
     has_id (String_of_time (clock host (reads st))) p = false) ->
  exists st1 st2 : State,
    ProductContextType.addProduct (ProductProvider st) product st = (Ok tt, st1)
    /\ ProductContextType.deleteProduct (ProductProvider st1)
         (String_of_time (clock host (reads st))) st1 = (Ok tt, st2)
    /\ products st2 = products st.
Proof.
  intros Hfresh. cbn [ProductProvider ProductContextType.addProduct
                      ProductContextType.deleteProduct].
  rewrite addProduct_added. eexists _, _. split; [reflexivity|].
  cbn [committed products]. rewrite deleteProduct_run. split; [reflexivity|].
  cbn [committed products]. rewrite List.filter_app. cbn [List.filter].
  rewrite has_id_added, String.eqb_refl. cbn [negb].
  rewrite app_nil_r. now apply filter_none.
Qed.

Lemma filter_filter_same {A} (f : A -> bool) (l : list A) :
  List.filter f (List.filter f l) = List.filter f l.
Proof.
  induction l as [|x l IH]; [reflexivity|]. cbn [List.filter].
  destruct (f x) eqn:Hx; [|exact IH]. cbn [List.filter]. now rewrite Hx, IH.
Qed.

Lemma updateProduct_no_match (l : list Product) (u : Product) (st : State) :
  (forall p : Product, In p l -> same_id u p = false) ->
  updateProduct l u st = (Ok tt, committed l st).
Proof.
  intros Hno. destruct (updateProduct_run l u st) as (l' & Hrun & Hlen & Hl').
  rewrite Hrun, (filter_false_nil (same_id u) l Hno). cbn [length].
  rewrite ticked_0. do 2 f_equal.
  apply list_eq. intros i. destruct (l !! i) as [p|] eqn:Hp.
  - rewrite (Hl' i p Hp).
    now rewrite (Hno p (proj1 (list_elem_of_In _ _) (list_elem_of_lookup_2 _ _ _ Hp))).
  - apply lookup_ge_None. rewrite Hlen. now apply lookup_ge_None.
Qed.

(** X14. After [deleteProduct(id)] no entry carries [id], and deleting [id]
    again from the next render leaves the list as it is. *)
Theorem deleteProduct_idempotent (st : State) (productId : string) :
  exists st1 st2 : State,
    ProductContextType.deleteProduct (ProductProvider st) productId st = (Ok tt, st1)
    /\ Forall (fun p => has_id productId p = false) (products st1)
    /\ ProductContextType.deleteProduct (ProductProvider st1) productId st1 = (Ok tt, st2)
    /\ products st2 = products st1.
Proof.
  cbn [ProductProvider ProductContextType.deleteProduct].
  rewrite deleteProduct_run. eexists _, _. split; [reflexivity|].
  cbn [committed products]. split; [|split].
  - apply List.Forall_forall. intros p Hp. apply List.filter_In in Hp as [_ Hp].
    now apply Bool.negb_true_iff.
  - rewrite deleteProduct_run. reflexivity.
  - cbn [committed products]. apply filter_filter_same.
Qed.

(** X15. Once [id] has been deleted, updating with a record that carries
    [id] changes nothing in the list: the deleted entry is not brought back. *)
Theorem deleteProduct_then_updateProduct (st : State) (productId : string)
    (updatedProduct : Product) :
  updatedProduct !! "id" = Some (VStr productId) ->
  exists st1 st2 : State,
    ProductContextType.deleteProduct (ProductProvider st) productId st = (Ok tt, st1)
    /\ ProductContextType.updateProduct (ProductProvider st1) updatedProduct st1
       = (Ok tt, st2)
    /\ products st2 = products st1
    /\ Forall (fun p => has_id productId p = false) (products st2).
Proof.
  intros Hid. cbn [ProductProvider ProductContextType.deleteProduct
                   ProductContextType.updateProduct].
  rewrite deleteProduct_run. eexists _, _. split; [reflexivity|].
  cbn [committed products].
  assert (Hgone : forall p, In p (List.filter (fun p => negb (has_id productId p))
                                    (products st)) -> has_id productId p = false).
  { intros p Hp. apply List.filter_In in Hp as [_ Hp]. now apply Bool.negb_true_iff. }
  rewrite updateProduct_no_match.
  - split; [reflexivity|]. cbn [committed products]. split; [reflexivity|].
    now apply List.Forall_forall.
  - intros p Hp. unfold same_id. rewrite (proj2 (get_string _ _ _) Hid).
    now apply Hgone.
Qed.

Lemma strict_eq_same_string (a b : value) (s : string) :
  strict_eq a b = true -> strict_eq b (VStr s) = strict_eq a (VStr s).
Proof.
  destruct a, b; cbn [strict_eq]; try discriminate; try reflexivity.
  intros H. apply String.eqb_eq in H. now subst.
Qed.

Lemma has_id_stamped (productId : string) (u : Product) (k : nat) :
  has_id productId (stamped u k) = strict_eq (get "id" u) (VStr productId).
Proof.
  unfold has_id, stamped, get. now rewrite lookup_insert_ne by discriminate.
Qed.

Lemma filter_length_pointwise {A} (f : A -> bool) (l k : list A) :
  Forall2 (fun x y => f y = f x) l k ->
  length (List.filter f k) = length (List.filter f l).
Proof.
  induction 1 as [|x y l k Hxy _ IH]; [reflexivity|]. cbn [List.filter].
  rewrite Hxy. destruct (f x); cbn [length]; now rewrite IH.
Qed.

(** X16. [updateProduct] never changes how many entries the list has, nor
    how many of them carry a given identifier: what it puts in place of an
    entry carries that entry's identifier. *)
Theorem updateProduct_preserves_identifiers (st : State) (updatedProduct : Product) :
  exists st' : State,
    ProductContextType.updateProduct (ProductProvider st) updatedProduct st = (Ok tt, st')
    /\ length (products st') = length (products st)
    /\ forall productId : string,
         length (List.filter (has_id productId) (products st'))
         = length (List.filter (has_id productId) (products st)).
Proof.
  cbn [ProductProvider ProductContextType.updateProduct].
  destruct (updateProduct_run (products st) updatedProduct st) as (l' & Hrun & Hlen & Hl').
  rewrite Hrun. eexists. split; [reflexivity|]. cbn [committed products].
  split; [exact Hlen|]. intros productId. apply filter_length_pointwise.
  apply Forall2_same_length_lookup_2; [now symmetry|].
  intros i old new Hold Hnew. rewrite (Hl' i old Hold) in Hnew. injection Hnew as <-.
  destruct (same_id updatedProduct old) eqn:Hs; [|reflexivity].
  rewrite has_id_stamped. now apply strict_eq_same_string.
Qed.

(** X17. Each of [addProduct], [updateProduct] and [deleteProduct] calls
    [setProducts] once and then [localStorage.setItem] once, with the same
    list, and makes no other call: the storage is never read, and [loading]
    and [error] keep their values. *)
Theorem mutations_set_then_save (st : State) :
  (forall product : Product, exists st' : State,
     ProductContextType.addProduct (ProductProvider st) product st = (Ok tt, st')
     /\ trace st' = (trace st ++ [SetProducts (products st');
                                  SetItem "products" (JSON_stringify host (products st'))])%list
     /\ loading st' = loading st /\ error st' = error st)
  /\ (forall updatedProduct : Product, exists st' : State,
     ProductContextType.updateProduct (ProductProvider st) updatedProduct st = (Ok tt, st')
     /\ trace st' = (trace st ++ [SetProducts (products st');
                                  SetItem "products" (JSON_stringify host (products st'))])%list
     /\ loading st' = loading st /\ error st' = error st)
  /\ (forall productId : string, exists st' : State,
     ProductContextType.deleteProduct (ProductProvider st) productId st = (Ok tt, st')
     /\ trace st' = (trace st ++ [SetProducts (products st');
                                  SetItem "products" (JSON_stringify host (products st'))])%list
     /\ loading st' = loading st /\ error st' = error st
     /\ reads st' = reads st).
Proof.
  cbn [ProductProvider ProductContextType.addProduct
       ProductContextType.updateProduct ProductContextType.deleteProduct].
  split; [|split].
  - intros product. rewrite addProduct_run. eexists. split; [reflexivity|].
    now repeat split.
  - intros u. destruct (updateProduct_run (products st) u st) as (l' & -> & _).
    eexists. split; [reflexivity|]. now repeat split.
  - intros productId. rewrite deleteProduct_run. eexists. split; [reflexivity|].
    now repeat split.
Qed.

(** X18. When the slot holds the serialization of the live list (as it does
    after every mutation) and [JSON.parse] gives that list back from it,
    [refreshProducts] leaves the live list as it is and clears the error. *)
Theorem refreshProducts_restores_persisted_list (st : State) :
  storage st !! "products" = Some (JSON_stringify host (products st)) ->
  JSON_stringify host (products st) <> "" ->
  JSON_parse host (JSON_stringify host (products st)) = Some (products st) ->
  exists st' : State,
    ProductContextType.refreshProducts (ProductProvider st) st = (Ok tt, st')
    /\ products st' = products st
    /\ error st' = None
    /\ storage st' = storage st.
Proof.
  intros Hslot Hne Hparse. cbn [ProductProvider ProductContextType.refreshProducts].
  rewrite (refresh_adopt st _ _ Hslot Hne Hparse). eexists. now repeat split.
Qed.

(** X19. [refreshProducts] is idempotent: a second refresh ends with the list,
    the error and the loading flag of the first.  It never reads the clock
    and never writes the storage. *)
Theorem refreshProducts_idempotent (st : State) :
  exists st1 st2 : State,
    ProductContextType.refreshProducts (ProductProvider st) st = (Ok tt, st1)
    /\ ProductContextType.refreshProducts (ProductProvider st1) st1 = (Ok tt, st2)
    /\ products st2 = products st1
    /\ error st2 = error st1
    /\ loading st2 = loading st1
    /\ reads st2 = reads st
    /\ storage st2 = storage st.
Proof.
  cbn [ProductProvider ProductContextType.refreshProducts].
  destruct (storage st !! "products") as [text|] eqn:H.
  - destruct (String.eqb_spec text "") as [->|Hne].
    + rewrite (refresh_seed st (or_intror H)). eexists _, _. split; [reflexivity|].
      rewrite refresh_seed by (right; exact H). now repeat split.
    + destruct (JSON_parse host text) as [l|] eqn:Hp.
      * rewrite (refresh_adopt st text l H Hne Hp). eexists _, _. split; [reflexivity|].
        rewrite (refresh_adopt _ text l) by assumption. now repeat split.
      * rewrite (refresh_fail st text H Hne Hp). eexists _, _. split; [reflexivity|].
        rewrite (refresh_fail _ text) by assumption. now repeat split.
  - rewrite (refresh_seed st (or_introl H)). eexists _, _. split; [reflexivity|].
    rewrite refresh_seed by (left; exact H). now repeat split.
Qed.

(** X20. The results of [getProductsByCategory] for two different categories,
    neither of them ["All"], have no entry in common, and each is made of
    entries of the live list. *)
Theorem getProductsByCategory_disjoint (st : State) (c1 c2 : string) :
  c1 <> c2 -> c1 <> "All" -> c2 <> "All" ->
  exists r1 r2 : list Product,
    ProductContextType.getProductsByCategory (ProductProvider st) c1 st = (Ok r1, st)
    /\ ProductContextType.getProductsByCategory (ProductProvider st) c2 st = (Ok r2, st)
    /\ (forall p : Product, In p r1 -> In p (products st) /\ ~ In p r2)
    /\ (forall p : Product, In p r2 -> In p (products st) /\ ~ In p r1).
Proof.
  intros Hne H1 H2. apply String.eqb_neq in H1, H2.
  cbn [ProductProvider ProductContextType.getProductsByCategory].
  unfold getProductsByCategory. rewrite H1, H2. eexists _, _.
  split; [reflexivity|]. split; [reflexivity|].
  split; intros p Hp; apply List.filter_In in Hp as [Hin Hp];
    (split; [exact Hin|]); intros Hq; apply List.filter_In in Hq as [_ Hq];
    apply strict_eq_string in Hp, Hq; congruence.
Qed.


(** X22. An update whose record has no [id] replaces every entry that has no
    [id] either ([undefined === undefined]) and leaves every entry with a
    string [id] as it is. *)
Theorem updateProduct_without_id (st : State) (updatedProduct : Product) :
  updatedProduct !! "id" = None ->
  exists st' : State,
    ProductContextType.updateProduct (ProductProvider st) updatedProduct st = (Ok tt, st')
    /\ forall (i : nat) (old : Product), products st !! i = Some old ->
         (old !! "id" = None ->
          exists k : nat, (reads st <= k < reads st')%nat
                          /\ products st' !! i = Some (stamped updatedProduct k))
         /\ (forall s : string, old !! "id" = Some (VStr s) ->
             products st' !! i = Some old).
Proof.
  intros Hu. cbn [ProductProvider ProductContextType.updateProduct].
  destruct (updateProduct_run (products st) updatedProduct st) as (l' & Hrun & Hlen & Hl').
  rewrite Hrun. eexists. split; [reflexivity|].
  cbn [committed products ticked reads]. intros i old Hold.
  specialize (Hl' i old Hold). unfold same_id at 1 in Hl'.
  rewrite (get_absent _ _ Hu) in Hl'. split.
  - intros Ho. rewrite (get_absent _ _ Ho) in Hl'. cbn [strict_eq] in Hl'.
    eexists. split; [|exact Hl'].
    split; [lia|].
    rewrite <- (take_drop_middle _ _ _ Hold) at 2.
    rewrite List.filter_app, length_app. cbn [List.filter].
    unfold same_id at 3. rewrite (get_absent _ _ Hu), (get_absent _ _ Ho).
    cbn [strict_eq length]. lia.
  - intros s Ho. now rewrite (proj2 (get_string _ _ _) Ho) in Hl'.
Qed.

(** X23. The seed conversion makes identifiers strings: each converted
    product is found under the string of its record's [id], while a record
    that still has a numeric [id] is found under no string at all. *)
Theorem convertToINR_identifier_is_found (raws : list Product) (st : State) :
  exists l st',
    convertToINR raws st = (Ok l, st')
    /\ Forall2 (fun raw p =>
                  has_id (ToString (NumberToString host) (get "id" raw)) p = true)
         raws l
    /\ forall (raw : Product) (f : float) (productId : string),
         raw !! "id" = Some (VNum f) -> has_id productId raw = false.
Proof.
  destruct (convertToINR_run raws st) as (l & st' & Hrun & HF).
  exists l, st'. split; [exact Hrun|]. split.
  - eapply Forall2_impl; [exact HF|]. intros raw p (_ & Hid & _).
    apply field_is_string, Hid.
  - intros raw f productId Hf. unfold has_id, get. now rewrite Hf.
Qed.

End Catalogue.

(** ** The properties on test data *)

Import Fixture.

(** C3 at a list whose first entry carries the identifier of the input: the
    entry becomes the input, stamped; the [name], [category], [price] and
    [createdAt] of the old entry are gone. *)
Lemma updateProduct_replaces_wholesale_witness :
  exists (st' : State) (new : Product),
    updateProduct host [shirt; watch] (<["id" := VStr "1"]> ∅)
      (state [shirt; watch] None None) = (Ok tt, st')
    /\ products st' !! 0%nat = Some new
    /\ new !! "createdAt" = None
    /\ new !! "name" = None
    /\ length (products st') = 2%nat.
Proof.
  destruct (updateProduct_replaces_wholesale host [] [] [] []
              (state [shirt; watch] None None) (<["id" := VStr "1"]> ∅) 0 shirt)
    as (st' & k & new & Hrun & Hnew & _ & _ & _ & Hc & Hf & Hlen).
  - reflexivity.
  - vm_compute. reflexivity.
  - exists st', new. split; [exact Hrun|]. split; [exact Hnew|].
    split; [rewrite Hc; vm_compute; reflexivity|]. split; [|exact Hlen].
    rewrite Hf by discriminate. vm_compute. reflexivity.
Defined.

(** C4 at a list none of whose entries carries the identifier of the input. *)
Lemma updateProduct_no_match_unchanged_witness :
  exists st' : State,
    updateProduct host [shirt; watch] (<["id" := VStr "9"]> ∅)
      (state [shirt; watch] None None) = (Ok tt, st')
    /\ products st' = [shirt; watch].
Proof.
  destruct (updateProduct_no_match_unchanged host [] [] [] []
              (state [shirt; watch] None None) (<["id" := VStr "9"]> ∅))
    as (st' & Hrun & Hl & _).
  - intros p [<-|[<-|[]]]; vm_compute; reflexivity.
  - exists st'. split; [exact Hrun|exact Hl].
Defined.

(** C5 fails as stated: with two entries under the identifier ["1"], deleting
    ["1"] shortens the list of three by two. *)
Lemma deleteProduct_duplicate_identifier_counterexample :
  shirt !! "id" = Some (VStr "1")
  /\ scarf !! "id" = Some (VStr "1")
  /\ length (products (state [shirt; watch; scarf] None None)) = 3%nat
  /\ products (snd (deleteProduct host [shirt; watch; scarf] "1"
                      (state [shirt; watch; scarf] None None))) = [watch].
Proof. repeat split; vm_compute; reflexivity. Qed.

(** C7 fails as stated: the empty string is a text [JSON.parse] rejects, yet
    with it in the slot a refresh replaces the live list by the seed list
    (here empty) and records no error. *)
Lemma refreshProducts_empty_string_counterexample :
  storage (state [shirt] None (Some "")) !! "products" = Some ""
  /\ JSON_parse host "" = None
  /\ products (state [shirt] None (Some "")) = [shirt]
  /\ products (snd (refreshProducts host [] [] [] [] (state [shirt] None (Some "")))) = []
  /\ error (snd (refreshProducts host [] [] [] [] (state [shirt] None (Some "")))) = None.
Proof. repeat split; vm_compute; reflexivity. Qed.

(** C7 at a slot that holds a non-empty text that does not parse. *)
Lemma refreshProducts_unparseable_snapshot_witness :
  exists st' : State,
    refreshProducts host [] [] [] [] (state [shirt] None (Some "{oops")) = (Ok tt, st')
    /\ loading st' = false
    /\ products st' = [shirt]
    /\ error st' = Some "Failed to refresh products".
Proof.
  destruct (refreshProducts_unparseable_snapshot host [] [] [] []
              (state [shirt] None (Some "{oops")))
    as (st' & Hrun & Hload & _ & Hfail & _).
  destruct (Hfail "{oops" eq_refl ltac:(discriminate) eq_refl) as (Hl & He & _).
  exists st'. split; [exact Hrun|]. split; [exact Hload|]. split; [exact Hl|exact He].
Defined.

(** C10 at a provider whose previous refresh failed and whose slot now holds
    the snapshot of the empty list. *)
Lemma refreshProducts_clears_error_witness :
  error (state [shirt] (Some "Failed to refresh products") (Some "[]"))
  = Some "Failed to refresh products"
  /\ exists st' : State,
       refreshProducts host [] [] [] []
         (state [shirt] (Some "Failed to refresh products") (Some "[]")) = (Ok tt, st')
       /\ error st' = None
       /\ products st' = [].
Proof.
  split; [reflexivity|].
  destruct (refreshProducts_clears_error host [] [] [] []
              (state [shirt] (Some "Failed to refresh products") (Some "[]")))
    as (st' & rest & Hrun & _ & _ & Hadopt).
  destruct (Hadopt "[]" [] eq_refl ltac:(discriminate) eq_refl) as (He & Hl).
  exists st'. split; [exact Hrun|]. split; [exact He|exact Hl].
Defined.

(** ** The further properties on test data *)

(** X1 at a record that has both timestamps. *)
Lemma convertToProduct_keeps_timestamps_witness :
  exists converted : Product,
    convertToProduct host dated (state [] None None) = (Ok converted, state [] None None)
    /\ converted !! "createdAt" = Some (get "createdAt" dated)
    /\ converted !! "updatedAt" = Some (get "updatedAt" dated).
Proof.
  apply (convertToProduct_keeps_timestamps host dated (state [] None None));
    vm_compute; reflexivity.
Defined.

(** X2 at a record that has only a name. *)
Lemma convertToProduct_fills_missing_fields_witness :
  convertToProduct host bare (state [] None None)
  = (Ok (<["updatedAt" := VStr (toISOString (clock host 1))]>
         (<["createdAt" := VStr (toISOString (clock host 0))]>
          (<["media" := VArr []]> (<["id" := VStr "undefined"]> bare)))),
     ticked 2 (state [] None None)).
Proof.
  apply (convertToProduct_fills_missing_fields host bare (state [] None None));
    vm_compute; reflexivity.
Defined.

(** X6 at a record whose price is a text without digits. *)
Lemma priceINR_not_a_number_witness :
  priceINR host (<["price" := VStr "call us"]> watch) = VNum PrimFloat.nan.
Proof.
  apply (priceINR_not_a_number host). right. exists "call us".
  split; vm_compute; reflexivity.
Defined.

(** X8 at a slot that holds a text that does not parse. *)
Lemma initial_state_corrupt_snapshot_throws_witness :
  exists st' : State,
    initial_state host [] [] [] [] (state [shirt] None (Some "{oops"))
    = (Throw SyntaxError, st')
    /\ storage st' = storage (state [shirt] None (Some "{oops"))
    /\ exists st'' : State,
         refreshProducts host [] [] [] [] (state [shirt] None (Some "{oops")) = (Ok tt, st'')
         /\ products st'' = products (state [shirt] None (Some "{oops")).
Proof.
  apply (initial_state_corrupt_snapshot_throws host [] [] [] []
           (state [shirt] None (Some "{oops")) "{oops");
    [reflexivity|discriminate|reflexivity].
Defined.

(** X9 at a slot that holds the snapshot of the empty list. *)
Lemma refreshProducts_agrees_with_mount_witness :
  exists st2 : State,
    refreshProducts host [] [] [] [] (state [shirt] None (Some "[]")) = (Ok tt, st2)
    /\ products st2 = [] /\ error st2 = None /\ loading st2 = false.
Proof.
  apply (refreshProducts_agrees_with_mount host [] [] [] []
           (state [shirt] None (Some "[]"))
           (slot_read (state [shirt] None (Some "[]"))) []).
  vm_compute. reflexivity.
Defined.

(** X12 under the clock that stands still. *)
Lemma addProduct_collision_witness :
  exists st1 st2 st3 : State,
    addProduct frozen [shirt] watch (state [shirt] None None) = (Ok tt, st1)
    /\ addProduct frozen (products st1) scarf st1 = (Ok tt, st2)
    /\ get "id" (added frozen watch 0) = get "id" (added frozen scarf 3)
    /\ deleteProduct frozen (products st2) "1700000000000" st2 = (Ok tt, st3)
    /\ products st3
       = List.filter (fun p => negb (has_id "1700000000000" p)) [shirt].
Proof.
  apply (addProduct_collision frozen [] [] [] [] (state [shirt] None None) watch scarf).
  reflexivity.
Defined.

(** X13 at a list none of whose entries carries the next clock reading. *)
Lemma addProduct_then_deleteProduct_witness :
  exists st1 st2 : State,
    addProduct host [shirt; watch] scarf (state [shirt; watch] None None) = (Ok tt, st1)
    /\ deleteProduct host (products st1) "1700000000000" st1 = (Ok tt, st2)
    /\ products st2 = [shirt; watch].
Proof.
  apply (addProduct_then_deleteProduct host [] [] [] []
           (state [shirt; watch] None None) scarf).
  intros p [<-|[<-|[]]]; vm_compute; reflexivity.
Defined.

(** X15 at a record that carries the deleted identifier. *)
Lemma deleteProduct_then_updateProduct_witness :
  exists st1 st2 : State,
    deleteProduct host [shirt; watch] "1" (state [shirt; watch] None None) = (Ok tt, st1)
    /\ updateProduct host (products st1) (<["id" := VStr "1"]> scarf) st1 = (Ok tt, st2)
    /\ products st2 = products st1
    /\ Forall (fun p => has_id "1" p = false) (products st2).
Proof.
  apply (deleteProduct_then_updateProduct host [] [] [] []
           (state [shirt; watch] None None) "1" (<["id" := VStr "1"]> scarf)).
  vm_compute. reflexivity.
Defined.

(** X18 at an empty list whose snapshot is in the slot. *)
Lemma refreshProducts_restores_persisted_list_witness :
  exists st' : State,
    refreshProducts host [shirt] [] [] [watch] (state [] (Some "stale") (Some "[]"))
    = (Ok tt, st')
    /\ products st' = []
    /\ error st' = None
    /\ storage st' = storage (state [] (Some "stale") (Some "[]")).
Proof.
  apply (refreshProducts_restores_persisted_list host [shirt] [] [] [watch]
           (state [] (Some "stale") (Some "[]")));
    [reflexivity|discriminate|reflexivity].
Defined.

(** X20 at the categories of [shirt] and [watch]. *)
Lemma getProductsByCategory_disjoint_witness :
  exists r1 r2 : list Product,
    getProductsByCategory [shirt; watch; scarf] "Men"
      (state [shirt; watch; scarf] None None)
    = (Ok r1, state [shirt; watch; scarf] None None)
    /\ getProductsByCategory [shirt; watch; scarf] "Watches"
         (state [shirt; watch; scarf] None None)
       = (Ok r2, state [shirt; watch; scarf] None None)
    /\ (forall p : Product, In p r1 -> In p [shirt; watch; scarf] /\ ~ In p r2)
    /\ (forall p : Product, In p r2 -> In p [shirt; watch; scarf] /\ ~ In p r1).
Proof.
  apply (getProductsByCategory_disjoint host [] [] [] []
           (state [shirt; watch; scarf] None None) "Men" "Watches"); discriminate.
Defined.


(** X22 at a list with one entry without [id] and one with. *)
Lemma updateProduct_without_id_witness :
  exists st' : State,
    updateProduct host [bare; shirt] (<["name" := VStr "Hat"]> ∅)
      (state [bare; shirt] None None) = (Ok tt, st')
    /\ products st' !! 0%nat = Some (stamped host (<["name" := VStr "Hat"]> ∅) 0)
    /\ products st' !! 1%nat = Some shirt.
Proof.
  destruct (updateProduct_without_id host [] [] [] []
              (state [bare; shirt] None None) (<["name" := VStr "Hat"]> ∅))
    as (st' & Hrun & H).
  - vm_compute. reflexivity.
  - exists st'. split; [exact Hrun|].
    cbn [ProductProvider ProductContextType.updateProduct] in Hrun.
    injection Hrun as <-. split; vm_compute; reflexivity.
Defined.
